(** * privacy-cash-sdk: the pool facade and its constants

    A shallow embedding of the TypeScript client of the shielded pool:
    [src/indexV2.ts] (class [PrivacyCashV2]), [dist/index.js] (class
    [PrivacyCash] and [getSolanaKeypair]), [utils/privy-wallet] and
    [utils/constants].  JavaScript values are modelled as follows:

    - a [number] holding lamports or token base units is a [Z] (the amounts
      are integers below 2^53, where the arithmetic of doubles is exact);
    - a [Uint8Array] or [Buffer] is a [list Z] of bytes;
    - a thrown [Error] is the [Throw] case of a [completion];
    - the module-level [storage] (a LocalStorage) is a [gmap string string];
    - an [async] method is a state transformer over the world it runs in;
      the event loop that interleaves several calls is a separate small
      machine ([EventLoop]) built from the same pieces. *)

From Stdlib Require Import ZArith List String Ascii Bool Lia.
From stdpp Require Import base gmap strings list.

Local Open Scope Z_scope.

(** ** JavaScript completions and the state-and-exception monad *)

Module Js.

Inductive JsError : Type := Error (message : string).

Inductive completion (A : Type) : Type :=
| Return (a : A)
| Throw (e : JsError).
Arguments Return {A} a.
Arguments Throw {A} e.

(** ToBoolean of a string: only the empty string is falsy. *)
Definition truthy_string (s : string) : bool :=
  match s with EmptyString => false | _ => true end.

(** ToUint8 on an integral number: what [Uint8Array.from] and
    [Buffer.from] store for each element. *)
Definition ToUint8 (x : Z) : Z := x mod 256.

Section Monad.
Context {S : Type}.

Definition M (A : Type) : Type := S -> completion A * S.

Definition ret {A} (a : A) : M A := fun s => (Return a, s).

Definition throw {A} (e : JsError) : M A := fun s => (Throw e, s).

Definition bind {A B} (m : M A) (k : A -> M B) : M B :=
  fun s =>
    match m s with
    | (Return a, s') => k a s'
    | (Throw e, s') => (Throw e, s')
    end.

Definition get : M S := fun s => (Return s, s).

Definition modify (f : S -> S) : M unit := fun s => (Return tt, f s).

(** A pure computation that may throw. *)
Definition lift {A} (c : completion A) : M A := fun s => (c, s).

(** [try { body } finally { fin }]: [fin] runs on both exits; a throw
    of [fin] replaces the completion of [body]. *)
Definition try_finally {A} (body : M A) (fin : M unit) : M A :=
  fun s =>
    let (r, s') := body s in
    match fin s' with
    | (Return _, s'') => (r, s'')
    | (Throw e, s'') => (Throw e, s'')
    end.
End Monad.

Arguments M : clear implicits.

End Js.

Export Js.

Declare Scope js_scope.
Delimit Scope js_scope with js.
Notation "x <- c1 ;; c2" := (bind c1 (fun x => c2))
  (at level 100, c1 at next level, right associativity) : js_scope.
Notation "c1 ;; c2" := (bind c1 (fun _ => c2))
  (at level 100, right associativity) : js_scope.

(** ** The [bs58] package: base-58 text of a byte array

    An external package, not part of the repository: [decode] as the
    package documents it (the alphabet of Bitcoin, a leading [1] for each
    leading zero byte, an error on any other character). *)

Module Bs58.

Definition ALPHABET : string :=
  "123456789ABCDEFGHJKLMNPQRSTUVWXYZabcdefghijkmnopqrstuvwxyz".

Definition LEADER : ascii := "1"%char.

Fixpoint index_of (c : ascii) (l : list ascii) (i : Z) : option Z :=
  match l with
  | [] => None
  | d :: l' => if Ascii.eqb c d then Some i else index_of c l' (i + 1)
  end.

(** [BASE_MAP[c]], [None] for a character outside the alphabet. *)
Definition BASE_MAP (c : ascii) : option Z :=
  index_of c (list_ascii_of_string ALPHABET) 0.

Fixpoint skip_leaders (cs : list ascii) : nat * list ascii :=
  match cs with
  | c :: cs' =>
      if Ascii.eqb c LEADER
      then let (n, rest) := skip_leaders cs' in (Datatypes.S n, rest)
      else (O, cs)
  | [] => (O, [])
  end.

Fixpoint digits_value (acc : Z) (cs : list ascii) : option Z :=
  match cs with
  | [] => Some acc
  | c :: cs' =>
      match BASE_MAP c with
      | Some d => digits_value (acc * 58 + d) cs'
      | None => None
      end
  end.

(** The big-endian bytes of [n] without leading zero bytes. *)
Fixpoint be_bytes (fuel : nat) (n : Z) (acc : list Z) : list Z :=
  match fuel with
  | O => acc
  | Datatypes.S fuel' =>
      if n =? 0 then acc else be_bytes fuel' (n / 256) (n mod 256 :: acc)
  end.

Definition decodeUnsafe (source : string) : option (list Z) :=
  let (zeroes, rest) := skip_leaders (list_ascii_of_string source) in
  match digits_value 0 rest with
  | Some v => Some (repeat 0 zeroes ++ be_bytes (List.length rest) v [])
  | None => None
  end.

Definition decode (source : string) : completion (list Z) :=
  match decodeUnsafe source with
  | Some buffer => Return buffer
  | None => Throw (Error "Non-base58 character")
  end.

Fixpoint skip_zero_bytes (bs : list Z) : nat * list Z :=
  match bs with
  | b :: bs' =>
      if b =? 0
      then let (n, rest) := skip_zero_bytes bs' in (Datatypes.S n, rest)
      else (O, bs)
  | [] => (O, [])
  end.

Definition bytes_value (bs : list Z) : Z :=
  fold_left (fun acc b => acc * 256 + b) bs 0.

Definition digit_char (d : Z) : ascii :=
  nth (Z.to_nat d) (list_ascii_of_string ALPHABET) LEADER.

Fixpoint be_digits (fuel : nat) (n : Z) (acc : list ascii) : list ascii :=
  match fuel with
  | O => acc
  | Datatypes.S fuel' =>
      if n =? 0 then acc
      else be_digits fuel' (n / 58) (digit_char (n mod 58) :: acc)
  end.

Definition encode (source : list Z) : string :=
  let (zeroes, rest) := skip_zero_bytes source in
  string_of_list_ascii
    (repeat LEADER zeroes
       ++ be_digits (2 * List.length rest) (bytes_value rest) []).

End Bs58.

(** ** [@solana/web3.js]: public keys and key pairs

    An external package, not part of the repository; only what the
    facade uses of it is modelled. *)

Module Web3.

Definition PUBLIC_KEY_LENGTH : nat := 32.

(** A public key is its 32 bytes. *)
Record PublicKey : Type := { toBytes : list Z }.

(** [new PublicKey(value)] for a string: base-58 text of exactly 32
    bytes, otherwise the constructor throws. *)
Definition PublicKey_new (value : string) : completion PublicKey :=
  match Bs58.decode value with
  | Throw e => Throw e
  | Return decoded =>
      if negb (Nat.eqb (List.length decoded) PUBLIC_KEY_LENGTH)
      then Throw (Error "Invalid public key input")
      else Return {| toBytes := decoded |}
  end.

Definition toBase58 (k : PublicKey) : string := Bs58.encode (toBytes k).

(** An object is truthy: [!this.publicKey] is false for every key. *)
Definition truthy_PublicKey (_ : PublicKey) : bool := true.

Record Keypair : Type :=
  { kp_publicKey : PublicKey; kp_secretKey : list Z }.

Fixpoint bytes_eqb (a b : list Z) : bool :=
  match a, b with
  | [], [] => true
  | x :: a', y :: b' => (x =? y) && bytes_eqb a' b'
  | _, _ => false
  end.

(** [Keypair.fromSecretKey]: 64 bytes, the seed followed by the public
    key the curve derives from it ([getPublicKey], the ed25519 scalar
    multiplication, is left to the caller of this model). *)
Definition Keypair_fromSecretKey (getPublicKey : list Z -> list Z)
    (secretKey : list Z) : completion Keypair :=
  if negb (Nat.eqb (List.length secretKey) 64)
  then Throw (Error "bad secret key size")
  else
    let publicKey := skipn 32 secretKey in
    let privateScalar := firstn 32 secretKey in
    if bytes_eqb publicKey (getPublicKey privateScalar)
    then Return {| kp_publicKey := {| toBytes := publicKey |};
                   kp_secretKey := secretKey |}
    else Throw (Error "provided secretKey is invalid").

End Web3.

Export Web3.

(** ** [utils/constants] *)

Module Constants.

(** [Buffer.from(array)] stores each number as an unsigned byte. *)
Definition Buffer_from (array : list Z) : list Z := map ToUint8 array.

(** [new PublicKey('...')] of a module-level constant. *)
Definition PublicKey_const (value : string) : PublicKey :=
  match PublicKey_new value with
  | Return k => k
  | Throw _ => {| toBytes := [] |}
  end.

Definition FIELD_SIZE : Z :=
  21888242871839275222246405745257275088548364400416034343698204186575808495617.
Definition PROGRAM_ID : PublicKey :=
  PublicKey_const "9fhQBbumKEFuXtMBDw8AaQyAjCorLGJQiS3skWZdQyQD".
Definition DEPLOYER_ID : PublicKey :=
  PublicKey_const "97rSMQUukMDjA7PYErccyx7ZxbHvSDaeXp2ig5BwSrTf".
Definition FEE_RECIPIENT : PublicKey :=
  PublicKey_const "AWexibGxNFKTa1b5R5MN4PJr9HWnWRwf8EW9g8cLx3dM".
Definition FETCH_UTXOS_GROUP_SIZE : Z := 10000.
Definition TRANSACT_IX_DISCRIMINATOR : list Z :=
  Buffer_from [217; 149; 130; 143; 221; 52; 252; 119].
Definition TRANSACT_SPL_IX_DISCRIMINATOR : list Z :=
  Buffer_from [154; 66; 244; 204; 78; 225; 163; 151].
Definition MERKLE_TREE_DEPTH : Z := 26.
Definition ALT_ADDRESS : PublicKey :=
  PublicKey_const "HEN49U2ySJ85Vc78qprSW9y6mFDhs1NczRxyppNHjofe".
Definition SIGN_MESSAGE : string := "Privacy Money account sign in".
Definition LSK_FETCH_OFFSET : string := "fetch_offset".
Definition LSK_ENCRYPTED_OUTPUTS : string := "encrypted_outputs".
Definition USDC_MINT : PublicKey :=
  PublicKey_const "EPjFWdd5AufqSSqeM2qN1xzybapC8G4wEGGkZwyTDt1v".

End Constants.

Export Constants.

(** ** [utils/privy-wallet]: the signing adapter *)

Module PrivyWallet.

Record PrivyConfig : Type :=
  { appId : string; appSecret : string; authorizationPrivateKey : string }.

Record t : Type :=
  { publicKey : PublicKey; privyClient : PrivyConfig; walletId : string }.

(** The package [@privy-io/server-auth], as far as the constructor uses
    it: [new PrivyClient(appId, appSecret)] and, on the client this
    gives, [walletApi.updateAuthorizationKey(authorizationPrivateKey)].
    Either may refuse what it is given and throw. *)
Record Package : Type :=
  { PrivyClient_new : string -> string -> completion unit;
    walletApi_updateAuthorizationKey : string -> completion unit }.

(** [constructor(config, walletId, publicKey)]: the key is given as
    base-58 text or as a [PublicKey]; then the client of the wallet
    service is made and given the authorization key. *)
Definition new (pkg : Package) (config : PrivyConfig) (walletId : string)
    (publicKey : string + PublicKey) : completion t :=
  match (match publicKey with
         | inl text => PublicKey_new text
         | inr key => Return key
         end) with
  | Return key =>
      match PrivyClient_new pkg (appId config) (appSecret config) with
      | Return _ =>
          match walletApi_updateAuthorizationKey pkg
                  (authorizationPrivateKey config) with
          | Return _ =>
              Return {| publicKey := key;
                        privyClient := config;
                        walletId := walletId |}
          | Throw e => Throw e
          end
      | Throw e => Throw e
      end
  | Throw e => Throw e
  end.

Definition getWalletId (w : t) : string := walletId w.

End PrivyWallet.

(** ** The functions the facade imports

    The bodies of [deposit], [withdraw], [getUtxos] and their token
    variants are not part of the facade; it only calls them.  They are
    taken here as the fields of [Sdk.Imports], each a transformer of the
    state outside the client object ([Outer]: the LocalStorage cache, the
    ledger behind the RPC connection, and what was logged). *)

Class Externals : Type :=
  { Connection : Type;
    EncryptionService : Type;
    LightWasm : Type;
    Utxo : Type;
    Ledger : Type }.

Inductive Signer : Type :=
| PrivySigner (wallet : PrivyWallet.t)
| KeypairSigner (keypair : Keypair).

Inductive LogEvent : Type :=
| LoggerInfo (message : string)
| ConsoleDepositV2 (depositLamports feeLamports : Z) (feeRecipient : string)
| ConsoleDepositSPLV2 (depositBaseUnits feeBaseUnits : Z) (feeRecipient : string)
| ConsoleWithdraw (recipient : PublicKey) (amount_in_lamports fee_in_lamports : Z)
| ConsoleWithdrawSPL (recipient : PublicKey) (base_units fee_base_units : Z).

Record Outer `{Externals} : Type :=
  { storage : gmap string string;
    ledger : Ledger;
    output : list LogEvent }.

Module DepositParams.
Record t `{Externals} : Type :=
  { lightWasm : LightWasm;
    amount_in_lamports : Z;
    connection : Connection;
    encryptionService : EncryptionService;
    publicKey : PublicKey;
    referrer : option string;
    transactionSigner : Signer;
    keyBasePath : string }.
End DepositParams.

Module DepositResult.
Record t : Type := { tx : string }.
End DepositResult.

Module DepositV2Params.
Record t `{Externals} : Type :=
  { lightWasm : LightWasm;
    totalLamports : Z;
    feeLamports : Z;
    feeRecipient : PublicKey;
    connection : Connection;
    encryptionService : EncryptionService;
    publicKey : PublicKey;
    referrer : option string;
    transactionSigner : Signer;
    keyBasePath : string }.
End DepositV2Params.

Module DepositV2Result.
Record t : Type :=
  { tx : string; depositLamports : Z; feeLamports : Z; feeRecipient : string }.
End DepositV2Result.

Module DepositSPLParams.
Record t `{Externals} : Type :=
  { lightWasm : LightWasm;
    base_units : Z;
    connection : Connection;
    encryptionService : EncryptionService;
    publicKey : PublicKey;
    mintAddress : PublicKey;
    referrer : option string;
    transactionSigner : Signer;
    keyBasePath : string }.
End DepositSPLParams.

Module DepositSPLV2Params.
Record t `{Externals} : Type :=
  { lightWasm : LightWasm;
    totalBaseUnits : Z;
    feeBaseUnits : Z;
    feeRecipient : PublicKey;
    connection : Connection;
    encryptionService : EncryptionService;
    publicKey : PublicKey;
    mintAddress : PublicKey;
    referrer : option string;
    transactionSigner : Signer;
    keyBasePath : string }.
End DepositSPLV2Params.

Module DepositSPLV2Result.
Record t : Type :=
  { tx : string; depositBaseUnits : Z; feeBaseUnits : Z; feeRecipient : string }.
End DepositSPLV2Result.

Module WithdrawParams.
Record t `{Externals} : Type :=
  { lightWasm : LightWasm;
    amount_in_lamports : Z;
    connection : Connection;
    encryptionService : EncryptionService;
    publicKey : PublicKey;
    recipient : PublicKey;
    keyBasePath : string }.
End WithdrawParams.

Module WithdrawResult.
Record t : Type :=
  { isPartial : bool;
    tx : string;
    recipient : string;
    amount_in_lamports : Z;
    fee_in_lamports : Z }.
End WithdrawResult.

Module WithdrawSPLParams.
Record t `{Externals} : Type :=
  { lightWasm : LightWasm;
    base_units : Z;
    connection : Connection;
    encryptionService : EncryptionService;
    publicKey : PublicKey;
    mintAddress : PublicKey;
    recipient : PublicKey;
    keyBasePath : string }.
End WithdrawSPLParams.

Module WithdrawSPLResult.
Record t : Type :=
  { isPartial : bool;
    tx : string;
    recipient : string;
    base_units : Z;
    fee_base_units : Z }.
End WithdrawSPLResult.

Module GetUtxosParams.
Record t `{Externals} : Type :=
  { publicKey : PublicKey;
    connection : Connection;
    encryptionService : EncryptionService }.
End GetUtxosParams.

Module GetUtxosSPLParams.
Record t `{Externals} : Type :=
  { publicKey : PublicKey;
    connection : Connection;
    encryptionService : EncryptionService;
    mintAddress : PublicKey }.
End GetUtxosSPLParams.

(** The declared result of [getPrivateBalance]: [{ lamports: number }]. *)
Module Balance.
Record t : Type := { lamports : Z }.
End Balance.

(** The declared result of [getPrivateBalanceSPL]:
    [{ base_units: number; lamports: number }]. *)
Module BalanceSPL.
Record t : Type := { base_units : Z; lamports : Z }.
End BalanceSPL.

Module Sdk.

Class Imports `{Externals} : Type :=
  { (* @lightprotocol/hasher.rs *)
    WasmFactory_getInstance : M Outer LightWasm;
    (* ./deposit.js *)
    deposit : DepositParams.t -> M Outer DepositResult.t;
    depositV2 : DepositV2Params.t -> M Outer DepositV2Result.t;
    (* ./depositSPL.js *)
    depositSPL : DepositSPLParams.t -> M Outer DepositResult.t;
    depositSPLV2 : DepositSPLV2Params.t -> M Outer DepositSPLV2Result.t;
    (* ./withdraw.js and ./withdrawSPL.js *)
    withdraw : WithdrawParams.t -> M Outer WithdrawResult.t;
    withdrawSPL : WithdrawSPLParams.t -> M Outer WithdrawSPLResult.t;
    (* ./getUtxos.js *)
    getUtxos : GetUtxosParams.t -> M Outer (list Utxo);
    getBalanceFromUtxos : list Utxo -> Balance.t;
    localstorageKey : PublicKey -> string;
    (* ./getUtxosSPL.js *)
    getUtxosSPL : GetUtxosSPLParams.t -> M Outer (list Utxo);
    getBalanceFromUtxosSPL : list Utxo -> BalanceSPL.t;
    localstorageKeySPL : PublicKey -> string;
    (* @solana/spl-token *)
    getAssociatedTokenAddress : PublicKey -> PublicKey -> completion PublicKey;
    (* @solana/web3.js *)
    Connection_new : string -> string -> completion Connection;
    Keypair_fromSecretKey : list Z -> completion Keypair;
    (* ./utils/encryption.js *)
    deriveEncryptionKeyFromPrivyWallet : PrivyWallet.t -> M Outer EncryptionService;
    deriveEncryptionKeyFromWallet : Keypair -> completion EncryptionService;
    (* path.join(import.meta.dirname, "..", "circuit2", "transaction2") *)
    path_join : list string -> string;
    import_meta_dirname : string }.

(** The calls the facade makes to the imported functions, in order. *)
Inductive Call `{Externals} : Type :=
| CallDeposit (p : DepositParams.t)
| CallDepositV2 (p : DepositV2Params.t)
| CallDepositSPL (p : DepositSPLParams.t)
| CallDepositSPLV2 (p : DepositSPLV2Params.t)
| CallWithdraw (p : WithdrawParams.t)
| CallWithdrawSPL (p : WithdrawSPLParams.t)
| CallGetUtxos (p : GetUtxosParams.t)
| CallGetUtxosSPL (p : GetUtxosSPLParams.t).

End Sdk.

(** The world a method of a client object of type [C] runs in: the object
    itself ([this]), the state outside it, and the record of the calls
    made to imported functions (kept for the statements, the code has no
    such list). *)
Record World `{Externals} (C : Type) : Type :=
  { this : C;
    outer : Outer;
    calls : list Sdk.Call }.
Arguments this {_ C} w.
Arguments outer {_ C} w.
Arguments calls {_ C} w.

Section Facade.
Context `{Imp : Sdk.Imports} {C : Type}.

Definition set_this (f : C -> C) : M (World C) unit :=
  modify (fun w => {| this := f (this w); outer := outer w; calls := calls w |}).

Definition set_outer (f : Outer -> Outer) : M (World C) unit :=
  modify (fun w => {| this := this w; outer := f (outer w); calls := calls w |}).

(** [await f(params)] for an imported function [f]. *)
Definition import {A} (c : Sdk.Call) (f : M Outer A) : M (World C) A :=
  fun w =>
    let (r, o) := f (outer w) in
    (r, {| this := this w; outer := o; calls := calls w ++ [c] |}).

Definition WasmFactory_getInstance : M (World C) LightWasm :=
  fun w =>
    let (r, o) := Sdk.WasmFactory_getInstance (outer w) in
    (r, {| this := this w; outer := o; calls := calls w |}).

Definition emit (e : LogEvent) : M (World C) unit :=
  set_outer (fun o => {| storage := storage o; ledger := ledger o;
                         output := output o ++ [e] |}).

(** [logger.info(message)] *)
Definition logger_info (message : string) : M (World C) unit :=
  emit (LoggerInfo message).

(** [storage.removeItem(key)] *)
Definition storage_removeItem (key : string) : M (World C) unit :=
  set_outer (fun o => {| storage := delete key (storage o); ledger := ledger o;
                         output := output o |}).

Definition keyBasePath : string :=
  Sdk.path_join [Sdk.import_meta_dirname; ".."; "circuit2"; "transaction2"]%string.

End Facade.

(** ** [src/indexV2.ts]: class [PrivacyCashV2]

    The [storage] the methods hand to the imported functions is the
    module-level LocalStorage, here the [storage] field of [Outer].  The
    status line and its spinner ([status], [startStatusRender]) are
    presentation and are left out; what the logger and the console are
    given is kept as [LogEvent]s. *)

Module PrivacyCashV2.

Record Client `{Externals} : Type :=
  { connection : Connection;
    publicKey : PublicKey;
    encryptionService : EncryptionService;
    privyWallet : PrivyWallet.t;
    isRunning : option bool }.

Record PrivacyCashV2Config : Type :=
  { RPC_url : string;
    walletId : string;
    cfg_publicKey : string + PublicKey;
    privy : PrivyWallet.PrivyConfig;
    enableDebug : option bool }.

Record DepositArgs : Type :=
  { lamports : Z; referrer : option string }.

Record DepositV2Args : Type :=
  { totalLamports : Z;
    feeLamports : Z;
    feeRecipient : string + PublicKey;
    v2_referrer : option string }.

Record WithdrawArgs : Type :=
  { w_lamports : Z; recipientAddress : option string }.

Record DepositSPLArgs : Type :=
  { baseUnits : Z; mintAddress : option PublicKey; spl_referrer : option string }.

Record DepositSPLV2Args : Type :=
  { totalBaseUnits : Z;
    feeBaseUnits : Z;
    splv2_feeRecipient : string + PublicKey;
    splv2_mintAddress : option PublicKey;
    splv2_referrer : option string }.

Record WithdrawSPLArgs : Type :=
  { w_baseUnits : Z;
    w_mintAddress : option PublicKey;
    w_recipientAddress : option string }.

(** A parameter with the default [= USDC_MINT]. *)
Definition or_USDC_MINT (mintAddress : option PublicKey) : PublicKey :=
  match mintAddress with Some m => m | None => USDC_MINT end.

Section Methods.
Context `{Imp : Sdk.Imports}.

Abbreviation W := (World Client).

Definition set_isRunning (b : bool) : M W unit :=
  set_this (fun c => {| connection := connection c;
                        publicKey := publicKey c;
                        encryptionService := encryptionService c;
                        privyWallet := privyWallet c;
                        isRunning := Some b |}).

(** [static async create(config)] *)
Definition create (pkg : PrivyWallet.Package) (config : PrivacyCashV2Config)
    : M Outer Client :=
  (privyWallet <- lift (PrivyWallet.new pkg (privy config) (walletId config)
                          (cfg_publicKey config)) ;;
   connection <- lift (Sdk.Connection_new (RPC_url config) "confirmed") ;;
   encryptionService <- Sdk.deriveEncryptionKeyFromPrivyWallet privyWallet ;;
   ret {| connection := connection;
          publicKey := PrivyWallet.publicKey privyWallet;
          encryptionService := encryptionService;
          privyWallet := privyWallet;
          isRunning := Some false |})%js.

(** [isOperationRunning()]: [this.isRunning ?? false] *)
Definition isOperationRunning (c : Client) : bool :=
  match isRunning c with Some b => b | None => false end.

Definition clearCache : M W unit :=
  (w <- get ;;
   if negb (truthy_PublicKey (publicKey (this w))) then ret tt
   else
     storage_removeItem
       (LSK_FETCH_OFFSET +:+ Sdk.localstorageKey (publicKey (this w))) ;;
     storage_removeItem
       (LSK_ENCRYPTED_OUTPUTS +:+ Sdk.localstorageKey (publicKey (this w))))%js.

Definition clearCacheSPL (mintAddress : option PublicKey) : M W unit :=
  (w <- get ;;
   if negb (truthy_PublicKey (publicKey (this w))) then ret tt
   else
     publicKeyAta <- lift (Sdk.getAssociatedTokenAddress
                             (or_USDC_MINT mintAddress) (publicKey (this w))) ;;
     storage_removeItem
       (LSK_FETCH_OFFSET +:+ Sdk.localstorageKeySPL publicKeyAta) ;;
     storage_removeItem
       (LSK_ENCRYPTED_OUTPUTS +:+ Sdk.localstorageKeySPL publicKeyAta))%js.

(** Each operation below is written as the part that runs when the
    method is called (up to its first [await]) followed by the rest. *)

Definition deposit_enter : M W unit :=
  (set_isRunning true ;; logger_info "start depositing")%js.

Definition deposit_rest (a : DepositArgs) : M W DepositResult.t :=
  try_finally
    (lightWasm <- WasmFactory_getInstance ;;
     w <- get ;;
     let p := {| DepositParams.lightWasm := lightWasm;
                 DepositParams.amount_in_lamports := lamports a;
                 DepositParams.connection := connection (this w);
                 DepositParams.encryptionService := encryptionService (this w);
                 DepositParams.publicKey := publicKey (this w);
                 DepositParams.referrer := referrer a;
                 DepositParams.transactionSigner := PrivySigner (privyWallet (this w));
                 DepositParams.keyBasePath := keyBasePath |} in
     res <- import (Sdk.CallDeposit p) (Sdk.deposit p) ;;
     ret res)%js
    (set_isRunning false).

Definition deposit (a : DepositArgs) : M W DepositResult.t :=
  (deposit_enter ;; deposit_rest a)%js.

(** [typeof feeRecipient === "string" ? new PublicKey(feeRecipient)
    : feeRecipient] *)
Definition feeRecipientPubkey (feeRecipient : string + PublicKey)
    : completion PublicKey :=
  match feeRecipient with
  | inl text => PublicKey_new text
  | inr key => Return key
  end.

Definition depositV2_enter : M W unit :=
  (set_isRunning true ;; logger_info "start depositing with fee transfer")%js.

Definition depositV2_rest (a : DepositV2Args) : M W DepositV2Result.t :=
  try_finally
    (lightWasm <- WasmFactory_getInstance ;;
     feeRecipientPubkey <- lift (feeRecipientPubkey (feeRecipient a)) ;;
     w <- get ;;
     let p := {| DepositV2Params.lightWasm := lightWasm;
                 DepositV2Params.totalLamports := totalLamports a;
                 DepositV2Params.feeLamports := feeLamports a;
                 DepositV2Params.feeRecipient := feeRecipientPubkey;
                 DepositV2Params.connection := connection (this w);
                 DepositV2Params.encryptionService := encryptionService (this w);
                 DepositV2Params.publicKey := publicKey (this w);
                 DepositV2Params.referrer := v2_referrer a;
                 DepositV2Params.transactionSigner := PrivySigner (privyWallet (this w));
                 DepositV2Params.keyBasePath := keyBasePath |} in
     res <- import (Sdk.CallDepositV2 p) (Sdk.depositV2 p) ;;
     emit (ConsoleDepositV2 (DepositV2Result.depositLamports res)
             (DepositV2Result.feeLamports res)
             (DepositV2Result.feeRecipient res)) ;;
     ret res)%js
    (set_isRunning false).

Definition depositV2 (a : DepositV2Args) : M W DepositV2Result.t :=
  (depositV2_enter ;; depositV2_rest a)%js.

(** [recipientAddress ? new PublicKey(recipientAddress)
    : this.publicKey]; the test is JavaScript truthiness, so the
    empty string counts as no address. *)
Definition recipient_of (recipientAddress : option string) (own : PublicKey)
    : completion PublicKey :=
  match recipientAddress with
  | Some text => if truthy_string text then PublicKey_new text else Return own
  | None => Return own
  end.

Definition withdraw_enter : M W unit :=
  (set_isRunning true ;; logger_info "start withdrawing")%js.

Definition withdraw_rest (a : WithdrawArgs) : M W WithdrawResult.t :=
  try_finally
    (lightWasm <- WasmFactory_getInstance ;;
     w <- get ;;
     recipient <- lift (recipient_of (recipientAddress a) (publicKey (this w))) ;;
     let p := {| WithdrawParams.lightWasm := lightWasm;
                 WithdrawParams.amount_in_lamports := w_lamports a;
                 WithdrawParams.connection := connection (this w);
                 WithdrawParams.encryptionService := encryptionService (this w);
                 WithdrawParams.publicKey := publicKey (this w);
                 WithdrawParams.recipient := recipient;
                 WithdrawParams.keyBasePath := keyBasePath |} in
     res <- import (Sdk.CallWithdraw p) (Sdk.withdraw p) ;;
     emit (ConsoleWithdraw recipient
             (WithdrawResult.amount_in_lamports res)
             (WithdrawResult.fee_in_lamports res)) ;;
     ret res)%js
    (set_isRunning false).

Definition withdraw (a : WithdrawArgs) : M W WithdrawResult.t :=
  (withdraw_enter ;; withdraw_rest a)%js.

Definition getPrivateBalance_enter : M W unit :=
  (logger_info "getting private balance" ;; set_isRunning true)%js.

Definition getPrivateBalance_rest : M W Balance.t :=
  try_finally
    (w <- get ;;
     let p := {| GetUtxosParams.publicKey := publicKey (this w);
                 GetUtxosParams.connection := connection (this w);
                 GetUtxosParams.encryptionService := encryptionService (this w) |} in
     utxos <- import (Sdk.CallGetUtxos p) (Sdk.getUtxos p) ;;
     ret (Sdk.getBalanceFromUtxos utxos))%js
    (set_isRunning false).

Definition getPrivateBalance : M W Balance.t :=
  (getPrivateBalance_enter ;; getPrivateBalance_rest)%js.

Definition depositSPL_enter : M W unit :=
  (set_isRunning true ;; logger_info "start depositing SPL token")%js.

Definition depositSPL_rest (a : DepositSPLArgs) : M W DepositResult.t :=
  try_finally
    (lightWasm <- WasmFactory_getInstance ;;
     w <- get ;;
     let p := {| DepositSPLParams.lightWasm := lightWasm;
                 DepositSPLParams.base_units := baseUnits a;
                 DepositSPLParams.connection := connection (this w);
                 DepositSPLParams.encryptionService := encryptionService (this w);
                 DepositSPLParams.publicKey := publicKey (this w);
                 DepositSPLParams.mintAddress := or_USDC_MINT (mintAddress a);
                 DepositSPLParams.referrer := spl_referrer a;
                 DepositSPLParams.transactionSigner :=
                   PrivySigner (privyWallet (this w));
                 DepositSPLParams.keyBasePath := keyBasePath |} in
     res <- import (Sdk.CallDepositSPL p) (Sdk.depositSPL p) ;;
     ret res)%js
    (set_isRunning false).

Definition depositSPL (a : DepositSPLArgs) : M W DepositResult.t :=
  (depositSPL_enter ;; depositSPL_rest a)%js.

Definition depositSPLV2_enter : M W unit :=
  (set_isRunning true ;;
   logger_info "start depositing SPL token with fee transfer")%js.

Definition depositSPLV2_rest (a : DepositSPLV2Args)
    : M W DepositSPLV2Result.t :=
  try_finally
    (lightWasm <- WasmFactory_getInstance ;;
     feeRecipientPubkey <- lift (feeRecipientPubkey (splv2_feeRecipient a)) ;;
     w <- get ;;
     let p := {| DepositSPLV2Params.lightWasm := lightWasm;
                 DepositSPLV2Params.totalBaseUnits := totalBaseUnits a;
                 DepositSPLV2Params.feeBaseUnits := feeBaseUnits a;
                 DepositSPLV2Params.feeRecipient := feeRecipientPubkey;
                 DepositSPLV2Params.connection := connection (this w);
                 DepositSPLV2Params.encryptionService := encryptionService (this w);
                 DepositSPLV2Params.publicKey := publicKey (this w);
                 DepositSPLV2Params.mintAddress :=
                   or_USDC_MINT (splv2_mintAddress a);
                 DepositSPLV2Params.referrer := splv2_referrer a;
                 DepositSPLV2Params.transactionSigner :=
                   PrivySigner (privyWallet (this w));
                 DepositSPLV2Params.keyBasePath := keyBasePath |} in
     res <- import (Sdk.CallDepositSPLV2 p) (Sdk.depositSPLV2 p) ;;
     emit (ConsoleDepositSPLV2 (DepositSPLV2Result.depositBaseUnits res)
             (DepositSPLV2Result.feeBaseUnits res)
             (DepositSPLV2Result.feeRecipient res)) ;;
     ret res)%js
    (set_isRunning false).

Definition depositSPLV2 (a : DepositSPLV2Args) : M W DepositSPLV2Result.t :=
  (depositSPLV2_enter ;; depositSPLV2_rest a)%js.

Definition withdrawSPL_enter : M W unit :=
  (set_isRunning true ;; logger_info "start withdrawing SPL token")%js.

Definition withdrawSPL_rest (a : WithdrawSPLArgs) : M W WithdrawSPLResult.t :=
  try_finally
    (lightWasm <- WasmFactory_getInstance ;;
     w <- get ;;
     recipient <- lift (recipient_of (w_recipientAddress a)
                          (publicKey (this w))) ;;
     let p := {| WithdrawSPLParams.lightWasm := lightWasm;
                 WithdrawSPLParams.base_units := w_baseUnits a;
                 WithdrawSPLParams.connection := connection (this w);
                 WithdrawSPLParams.encryptionService := encryptionService (this w);
                 WithdrawSPLParams.publicKey := publicKey (this w);
                 WithdrawSPLParams.mintAddress := or_USDC_MINT (w_mintAddress a);
                 WithdrawSPLParams.recipient := recipient;
                 WithdrawSPLParams.keyBasePath := keyBasePath |} in
     res <- import (Sdk.CallWithdrawSPL p) (Sdk.withdrawSPL p) ;;
     emit (ConsoleWithdrawSPL recipient
             (WithdrawSPLResult.base_units res)
             (WithdrawSPLResult.fee_base_units res)) ;;
     ret res)%js
    (set_isRunning false).

Definition withdrawSPL (a : WithdrawSPLArgs) : M W WithdrawSPLResult.t :=
  (withdrawSPL_enter ;; withdrawSPL_rest a)%js.

Definition getPrivateBalanceSPL_enter : M W unit :=
  (logger_info "getting private SPL balance" ;; set_isRunning true)%js.

Definition getPrivateBalanceSPL_rest (mintAddress : option PublicKey)
    : M W BalanceSPL.t :=
  try_finally
    (w <- get ;;
     let p := {| GetUtxosSPLParams.publicKey := publicKey (this w);
                 GetUtxosSPLParams.connection := connection (this w);
                 GetUtxosSPLParams.encryptionService := encryptionService (this w);
                 GetUtxosSPLParams.mintAddress := or_USDC_MINT mintAddress |} in
     utxos <- import (Sdk.CallGetUtxosSPL p) (Sdk.getUtxosSPL p) ;;
     ret (Sdk.getBalanceFromUtxosSPL utxos))%js
    (set_isRunning false).

Definition getPrivateBalanceSPL (mintAddress : option PublicKey)
    : M W BalanceSPL.t :=
  (getPrivateBalanceSPL_enter ;; getPrivateBalanceSPL_rest mintAddress)%js.

End Methods.

End PrivacyCashV2.

(** ** [dist/index.js]: class [PrivacyCash] and [getSolanaKeypair] *)

Module PrivacyCash.

(** [owner: string | number[] | Uint8Array | Keypair] *)
Inductive Secret : Type :=
| OfKeypair (keypair : Keypair)
| OfString (text : string)
| OfUint8Array (bytes : list Z)
| OfNumbers (numbers : list Z).

Record Client `{Externals} : Type :=
  { connection : Connection;
    publicKey : PublicKey;
    encryptionService : EncryptionService;
    keypair : Keypair;
    isRuning : bool }.

Record Args : Type :=
  { RPC_url : string; owner : Secret; enableDebug : option bool }.

Record WithdrawArgs : Type :=
  { lamports : Z; recipientAddress : option string }.

Definition double_quote : string := String (ascii_of_nat 34) EmptyString.

(** The message of the error the constructor throws:
    param, the word owner in double quotes, and the rest. *)
Definition owner_error : JsError :=
  Error ("param " +:+ double_quote +:+ "owner" +:+ double_quote
           +:+ " is not a valid Private Key or Keypair").

Section Methods.
Context `{Imp : Sdk.Imports}.

Abbreviation W := (World Client).

(** The body of the [try] block of [getSolanaKeypair]. *)
Definition getSolanaKeypair_try (secret : Secret) : completion (option Keypair) :=
  match secret with
  | OfKeypair k => Return (Some k)
  | _ =>
      match (match secret with
             | OfString text => Bs58.decode text
             | OfUint8Array bytes => Return bytes
             | OfNumbers numbers => Return (map ToUint8 numbers)
             | OfKeypair _ => Return []
             end) with
      | Throw e => Throw e
      | Return keyArray =>
          if negb (Nat.eqb (List.length keyArray) 32)
             && negb (Nat.eqb (List.length keyArray) 64)
          then Return None
          else
            match Sdk.Keypair_fromSecretKey keyArray with
            | Return k => Return (Some k)
            | Throw e => Throw e
            end
      end
  end.

(** [try { ... } catch { return null }] *)
Definition getSolanaKeypair (secret : Secret) : option Keypair :=
  match getSolanaKeypair_try secret with
  | Return r => r
  | Throw _ => None
  end.

Definition constructor (a : Args) : completion Client :=
  match getSolanaKeypair (owner a) with
  | None => Throw owner_error
  | Some keypair =>
      match Sdk.Connection_new (RPC_url a) "confirmed" with
      | Throw e => Throw e
      | Return connection =>
          match Sdk.deriveEncryptionKeyFromWallet keypair with
          | Throw e => Throw e
          | Return encryptionService =>
              Return {| connection := connection;
                        publicKey := kp_publicKey keypair;
                        encryptionService := encryptionService;
                        keypair := keypair;
                        isRuning := false |}
          end
      end
  end.

Definition set_isRuning (b : bool) : M W unit :=
  set_this (fun c => {| connection := connection c;
                        publicKey := publicKey c;
                        encryptionService := encryptionService c;
                        keypair := keypair c;
                        isRuning := b |}).

(** [recipientAddress ? new PublicKey(recipientAddress) : this.publicKey] *)
Definition recipient_of (recipientAddress : option string) (own : PublicKey)
    : completion PublicKey :=
  match recipientAddress with
  | Some text => if truthy_string text then PublicKey_new text else Return own
  | None => Return own
  end.

Definition withdraw (a : WithdrawArgs) : M W WithdrawResult.t :=
  (set_isRuning true ;;
   logger_info "start withdrawing" ;;
   lightWasm <- WasmFactory_getInstance ;;
   w <- get ;;
   recipient <- lift (recipient_of (recipientAddress a) (publicKey (this w))) ;;
   let p := {| WithdrawParams.lightWasm := lightWasm;
               WithdrawParams.amount_in_lamports := lamports a;
               WithdrawParams.connection := connection (this w);
               WithdrawParams.encryptionService := encryptionService (this w);
               WithdrawParams.publicKey := publicKey (this w);
               WithdrawParams.recipient := recipient;
               WithdrawParams.keyBasePath := keyBasePath |} in
   res <- import (Sdk.CallWithdraw p) (Sdk.withdraw p) ;;
   emit (ConsoleWithdraw recipient
           (WithdrawResult.amount_in_lamports res)
           (WithdrawResult.fee_in_lamports res)) ;;
   set_isRuning false ;;
   ret res)%js.

(** [clearCache()] of the keypair client. *)
Definition clearCache : M W unit :=
  (w <- get ;;
   if negb (truthy_PublicKey (publicKey (this w))) then ret tt
   else
     storage_removeItem
       (LSK_FETCH_OFFSET +:+ Sdk.localstorageKey (publicKey (this w))) ;;
     storage_removeItem
       (LSK_ENCRYPTED_OUTPUTS +:+ Sdk.localstorageKey (publicKey (this w))))%js.

(** [deposit({ lamports })]: signed with the client's own keypair, no
    referrer. *)
Definition deposit (lamports : Z) : M W DepositResult.t :=
  (set_isRuning true ;;
   logger_info "start depositting" ;;
   lightWasm <- WasmFactory_getInstance ;;
   w <- get ;;
   let p := {| DepositParams.lightWasm := lightWasm;
               DepositParams.amount_in_lamports := lamports;
               DepositParams.connection := connection (this w);
               DepositParams.encryptionService := encryptionService (this w);
               DepositParams.publicKey := publicKey (this w);
               DepositParams.referrer := None;
               DepositParams.transactionSigner := KeypairSigner (keypair (this w));
               DepositParams.keyBasePath := keyBasePath |} in
   res <- import (Sdk.CallDeposit p) (Sdk.deposit p) ;;
   set_isRuning false ;;
   ret res)%js.

Definition getPrivateBalance : M W Balance.t :=
  (logger_info "getting private balance" ;;
   set_isRuning true ;;
   w <- get ;;
   let p := {| GetUtxosParams.publicKey := publicKey (this w);
               GetUtxosParams.connection := connection (this w);
               GetUtxosParams.encryptionService := encryptionService (this w) |} in
   utxos <- import (Sdk.CallGetUtxos p) (Sdk.getUtxos p) ;;
   set_isRuning false ;;
   ret (Sdk.getBalanceFromUtxos utxos))%js.

End Methods.

End PrivacyCash.

(** ** Several calls on one client: the event loop

    JavaScript runs one piece of code at a time.  Calling an [async]
    method runs it up to its first [await] and leaves the rest pending;
    the rest of a pending call runs later, when what it awaits settles.
    The machine below keeps the pending calls of one [PrivacyCashV2]
    object; the part of a method after its first [await] is taken as one
    step. *)

Module EventLoop.
Import PrivacyCashV2.

Inductive Op : Type :=
| Deposit (a : DepositArgs)
| DepositV2 (a : DepositV2Args)
| Withdraw (a : WithdrawArgs)
| GetPrivateBalance
| DepositSPL (a : DepositSPLArgs)
| DepositSPLV2 (a : DepositSPLV2Args)
| WithdrawSPL (a : WithdrawSPLArgs)
| GetPrivateBalanceSPL (mintAddress : option PublicKey).

(** What the promise of a call is fulfilled with. *)
Inductive Value : Type :=
| OfDeposit (r : DepositResult.t)
| OfDepositV2 (r : DepositV2Result.t)
| OfWithdraw (r : WithdrawResult.t)
| OfBalance (r : Balance.t)
| OfDepositSPLV2 (r : DepositSPLV2Result.t)
| OfWithdrawSPL (r : WithdrawSPLResult.t)
| OfBalanceSPL (r : BalanceSPL.t).

(** Deposits and withdrawals change the pool; balance queries only read. *)
Definition mutating (op : Op) : bool :=
  match op with
  | GetPrivateBalance | GetPrivateBalanceSPL _ => false
  | _ => true
  end.

Section Machine.
Context `{Imp : Sdk.Imports}.

Abbreviation W := (World Client).

Definition enter (op : Op) : M W unit :=
  match op with
  | Deposit _ => deposit_enter
  | DepositV2 _ => depositV2_enter
  | Withdraw _ => withdraw_enter
  | GetPrivateBalance => getPrivateBalance_enter
  | DepositSPL _ => depositSPL_enter
  | DepositSPLV2 _ => depositSPLV2_enter
  | WithdrawSPL _ => withdrawSPL_enter
  | GetPrivateBalanceSPL _ => getPrivateBalanceSPL_enter
  end.

Definition rest (op : Op) : M W Value :=
  match op with
  | Deposit a => (r <- deposit_rest a ;; ret (OfDeposit r))%js
  | DepositV2 a => (r <- depositV2_rest a ;; ret (OfDepositV2 r))%js
  | Withdraw a => (r <- withdraw_rest a ;; ret (OfWithdraw r))%js
  | GetPrivateBalance => (r <- getPrivateBalance_rest ;; ret (OfBalance r))%js
  | DepositSPL a => (r <- depositSPL_rest a ;; ret (OfDeposit r))%js
  | DepositSPLV2 a => (r <- depositSPLV2_rest a ;; ret (OfDepositSPLV2 r))%js
  | WithdrawSPL a => (r <- withdrawSPL_rest a ;; ret (OfWithdrawSPL r))%js
  | GetPrivateBalanceSPL m =>
      (r <- getPrivateBalanceSPL_rest m ;; ret (OfBalanceSPL r))%js
  end.

(** The method called and awaited with nothing else in between. *)
Definition method (op : Op) : M W Value :=
  match op with
  | Deposit a => (r <- deposit a ;; ret (OfDeposit r))%js
  | DepositV2 a => (r <- depositV2 a ;; ret (OfDepositV2 r))%js
  | Withdraw a => (r <- withdraw a ;; ret (OfWithdraw r))%js
  | GetPrivateBalance => (r <- getPrivateBalance ;; ret (OfBalance r))%js
  | DepositSPL a => (r <- depositSPL a ;; ret (OfDeposit r))%js
  | DepositSPLV2 a => (r <- depositSPLV2 a ;; ret (OfDepositSPLV2 r))%js
  | WithdrawSPL a => (r <- withdrawSPL a ;; ret (OfWithdrawSPL r))%js
  | GetPrivateBalanceSPL m =>
      (r <- getPrivateBalanceSPL m ;; ret (OfBalanceSPL r))%js
  end.

Record Loop : Type :=
  { world : W;
    pending : list Op }.

(** The world with [this.isRunning] holding [flag], all else the same. *)
Definition flagged (flag : option bool) (w : W) : W :=
  {| this := {| connection := connection (this w);
                publicKey := publicKey (this w);
                encryptionService := encryptionService (this w);
                privyWallet := privyWallet (this w);
                isRunning := flag |};
     outer := outer w;
     calls := calls w |}.

(** The caller invokes a method: its synchronous part runs now.  When it
    returns, the rest of the method is left pending; when it throws, the
    promise is rejected at once and nothing is left pending. *)
Definition call (op : Op) (l : Loop) : Loop :=
  match enter op (world l) with
  | (Return _, w) => {| world := w; pending := pending l ++ [op] |}
  | (Throw _, w) => {| world := w; pending := pending l |}
  end.

(** The [i]-th pending call runs to its end and its promise settles. *)
Definition settle (i : nat) (l : Loop) : option (completion Value * Loop) :=
  match pending l !! i with
  | Some op =>
      let (r, w) := rest op (world l) in
      Some (r, {| world := w; pending := delete i (pending l) |})
  | None => None
  end.

Definition in_flight (l : Loop) : nat :=
  List.length (List.filter mutating (pending l)).

End Machine.

End EventLoop.

(** ** Result objects as JavaScript sees them *)

Module Shape.

Inductive JsValue : Type :=
| Num (z : Z)
| Str (s : string)
| Boolean (b : bool).

(** An object literal: its properties in order. *)
Definition JsObject : Type := list (string * JsValue).

Definition keys (o : JsObject) : list string := map fst o.

Definition of_Balance (r : Balance.t) : JsObject :=
  [("lamports"%string, Num (Balance.lamports r))].

Definition of_BalanceSPL (r : BalanceSPL.t) : JsObject :=
  [("base_units"%string, Num (BalanceSPL.base_units r));
   ("lamports"%string, Num (BalanceSPL.lamports r))].

(** An object with exactly one property, a number. *)
Definition single_amount (o : JsObject) : bool :=
  match o with
  | [(_, Num _)] => true
  | _ => false
  end.

End Shape.

(** ** The deposit-with-fee functions, from their description *)

Module PoolModel.

(** The public side of a note: what it is worth, in which asset
    ([None] for the native coin), and whose it is. *)
Record Note : Type :=
  { amount : Z; assetId : option PublicKey; ownerKey : PublicKey }.

Record FeeTransfer : Type :=
  { fee_to : PublicKey; fee_amount : Z }.

Record Instruction : Type :=
  { discriminator : list Z;
    output_note : Note;
    fee_transfer : option FeeTransfer }.

Section Model.
Context `{Externals}.

(** Proving and submitting: the prover and the RPC connection either
    give the signature of the confirmed transaction or fail. *)
Variable submit : Instruction -> M Outer string.

(** Modelled from the spec: the body of [depositV2] of [deposit.ts],
    of which only the declaration ([dist/deposit.d.ts]) is at hand.
    The spec and that declaration say: the total is fee plus deposit,
    the note deposited is worth the total minus the fee, the
    fee-transfer instruction carries the fee to the fee recipient,
    and the result is [{tx, depositAmount, feeAmount, feeRecipient}]. *)
Definition depositV2 (p : DepositV2Params.t) : M Outer DepositV2Result.t :=
  (let depositLamports :=
     DepositV2Params.totalLamports p - DepositV2Params.feeLamports p in
   tx <- submit
           {| discriminator := TRANSACT_IX_DISCRIMINATOR;
              output_note := {| amount := depositLamports;
                                assetId := None;
                                ownerKey := DepositV2Params.publicKey p |};
              fee_transfer :=
                Some {| fee_to := DepositV2Params.feeRecipient p;
                        fee_amount := DepositV2Params.feeLamports p |} |} ;;
   ret {| DepositV2Result.tx := tx;
          DepositV2Result.depositLamports := depositLamports;
          DepositV2Result.feeLamports := DepositV2Params.feeLamports p;
          DepositV2Result.feeRecipient :=
            toBase58 (DepositV2Params.feeRecipient p) |})%js.

(** Modelled from the spec: the body of [depositSPLV2] of
    [depositSPL.ts], of which only the declaration is at hand; the
    same as [depositV2] in token base units of the given mint. *)
Definition depositSPLV2 (p : DepositSPLV2Params.t)
    : M Outer DepositSPLV2Result.t :=
  (let depositBaseUnits :=
     DepositSPLV2Params.totalBaseUnits p - DepositSPLV2Params.feeBaseUnits p in
   tx <- submit
           {| discriminator := TRANSACT_SPL_IX_DISCRIMINATOR;
              output_note := {| amount := depositBaseUnits;
                                assetId := Some (DepositSPLV2Params.mintAddress p);
                                ownerKey := DepositSPLV2Params.publicKey p |};
              fee_transfer :=
                Some {| fee_to := DepositSPLV2Params.feeRecipient p;
                        fee_amount := DepositSPLV2Params.feeBaseUnits p |} |} ;;
   ret {| DepositSPLV2Result.tx := tx;
          DepositSPLV2Result.depositBaseUnits := depositBaseUnits;
          DepositSPLV2Result.feeBaseUnits := DepositSPLV2Params.feeBaseUnits p;
          DepositSPLV2Result.feeRecipient :=
            toBase58 (DepositSPLV2Params.feeRecipient p) |})%js.

(** The imports with the two deposit-with-fee functions as described. *)
Definition with_fee_deposits (imp : Sdk.Imports) : Sdk.Imports :=
  {| Sdk.WasmFactory_getInstance := Sdk.WasmFactory_getInstance;
     Sdk.deposit := Sdk.deposit;
     Sdk.depositV2 := depositV2;
     Sdk.depositSPL := Sdk.depositSPL;
     Sdk.depositSPLV2 := depositSPLV2;
     Sdk.withdraw := Sdk.withdraw;
     Sdk.withdrawSPL := Sdk.withdrawSPL;
     Sdk.getUtxos := Sdk.getUtxos;
     Sdk.getBalanceFromUtxos := Sdk.getBalanceFromUtxos;
     Sdk.localstorageKey := Sdk.localstorageKey;
     Sdk.getUtxosSPL := Sdk.getUtxosSPL;
     Sdk.getBalanceFromUtxosSPL := Sdk.getBalanceFromUtxosSPL;
     Sdk.localstorageKeySPL := Sdk.localstorageKeySPL;
     Sdk.getAssociatedTokenAddress := Sdk.getAssociatedTokenAddress;
     Sdk.Connection_new := Sdk.Connection_new;
     Sdk.Keypair_fromSecretKey := Sdk.Keypair_fromSecretKey;
     Sdk.deriveEncryptionKeyFromPrivyWallet :=
       Sdk.deriveEncryptionKeyFromPrivyWallet;
     Sdk.deriveEncryptionKeyFromWallet := Sdk.deriveEncryptionKeyFromWallet;
     Sdk.path_join := Sdk.path_join;
     Sdk.import_meta_dirname := Sdk.import_meta_dirname |}.

End Model.

(** Modelled from the spec: what the imported [withdraw] (withdraw.ts)
    and [withdrawSPL] (withdrawSPL.ts) put in the [recipient] of their
    result; their bodies are not at hand, only the declaration of
    [withdrawSPL] (its parameter [recipient: PublicKey], its result
    [recipient: string]).  The spec gives a withdrawal the result
    [{isPartial, tx, recipient, amount, fee}]: the recipient reported is
    the address the withdrawal was made to, as base-58 text. *)
Definition reports_recipient `{Imp : Sdk.Imports} : Prop :=
  (forall p o res o',
      Sdk.withdraw p o = (Return res, o') ->
      WithdrawResult.recipient res = toBase58 (WithdrawParams.recipient p))
  /\ (forall p o res o',
      Sdk.withdrawSPL p o = (Return res, o') ->
      WithdrawSPLResult.recipient res = toBase58 (WithdrawSPLParams.recipient p)).

End PoolModel.

(** ** The status line: [startStatusRender], [stdWrite] and the logger
    the constructors install

    Both classes start the same loop when [enableDebug] is off: every
    250 ms, if an operation is running, one line is written with the next
    of four frames.  A turn of the loop is given the flag and the status
    it reads from the client. *)

Module StatusRender.

Definition char (code : nat) : string := String (ascii_of_nat code) EmptyString.

(** [["-", "\\", "|", "/"]]: a minus, a backslash, a bar, a slash. *)
Definition frames : list string := ["-"%string; char 92; "|"%string; "/"%string].

(** [frames[k]]; an index outside the array reads [undefined]. *)
Definition frame_at (k : Z) : string :=
  if k <? 0 then "undefined"%string
  else nth (Z.to_nat k) frames "undefined"%string.

(** [stdWrite(status, frame)]: the text given to [process.stdout.write]. *)
Definition stdWrite (status frame : string) : string :=
  let blue := (char 27 +:+ "[34m")%string in
  let reset := (char 27 +:+ "[0m")%string in
  (frame +:+ "status: " +:+ blue +:+ status +:+ reset +:+ char 13)%string.

Record Render : Type :=
  { i : Z;
    stdout : list string }.

(** [let i = 0] and nothing written yet. *)
Definition start : Render := {| i := 0; stdout := [] |}.

(** One turn of [while (true)], up to the [await] of the timer. *)
Definition turn (isRunning : bool) (status : string) (r : Render) : Render :=
  if isRunning
  then
    let k := i r mod Z.of_nat (List.length frames) in
    {| i := i r + 1;
       stdout := stdout r ++ [stdWrite status (frame_at k)] |}
  else r.

(** The turns of the loop, each with what it reads. *)
Definition turns (reads : list (bool * string)) (r : Render) : Render :=
  fold_left (fun r x => turn (fst x) (snd x) r) reads r.

(** What the logger installed by the constructor keeps: the status shown
    and the lines it gives to [console.log]. *)
Record Display : Type :=
  { status : string;
    console : list (string * string) }.

(** [(level, message) => { if (level === "info") this.status = message;
    else if (level === "error") console.log("error message:", message) }] *)
Definition on_log (level message : string) (d : Display) : Display :=
  if String.eqb level "info"
  then {| status := message; console := console d |}
  else if String.eqb level "error"
       then {| status := status d;
               console := console d ++ [("error message:"%string, message)] |}
       else d.

Definition on_logs (entries : list (string * string)) (d : Display) : Display :=
  fold_left (fun d x => on_log (fst x) (snd x) d) entries d.

End StatusRender.

(** ** [utils/privy-wallet]: signing

    The wallet service is reached through [privyClient.walletApi]; what
    it answers for a wallet and a transaction is taken as a function. *)

Module PrivySigning.

Section Signing.
Context {Transaction : Type}.

(** The response of [walletApi.solana.signTransaction]. *)
Record SignTransactionResponse : Type := { signedTransaction : Transaction }.

Variable walletApi_solana_signTransaction :
  string -> Transaction -> completion SignTransactionResponse.

Definition signTransaction (w : PrivyWallet.t) (tx : Transaction)
    : completion Transaction :=
  match walletApi_solana_signTransaction (PrivyWallet.walletId w) tx with
  | Return signedTx => Return (signedTransaction signedTx)
  | Throw e => Throw e
  end.

(** The reasons of the promises that reject, taken at the given
    positions. *)
Definition rejections {A} (positions : list nat) (promises : list (completion A))
    : list JsError :=
  omap (fun n => match promises !! n with
                 | Some (Throw e) => Some e
                 | _ => None
                 end) positions.

Definition values {A} (promises : list (completion A)) : list A :=
  omap (fun p => match p with Return a => Some a | Throw _ => None end) promises.

(** [Promise.all(promises)]: fulfilled with all the values, in the order
    of the array, when none rejects; rejected with the reason of the
    first promise to reject otherwise.  [settled] is the order in which
    the promises settle. *)
Definition Promise_all {A} (settled : list nat) (promises : list (completion A))
    : completion (list A) :=
  match rejections settled promises
        ++ rejections (seq 0 (List.length promises)) promises with
  | e :: _ => Throw e
  | [] => Return (values promises)
  end.

(** [Promise.all(txs.map((tx) => this.signTransaction(tx)))] *)
Definition signAllTransactions (settled : list nat) (w : PrivyWallet.t)
    (txs : list Transaction) : completion (list Transaction) :=
  Promise_all settled (map (signTransaction w) txs).

End Signing.

End PrivySigning.

(** ** A client used by one caller at a time *)

Module Sequential.
Import PrivacyCashV2 EventLoop.

Section Runs.
Context `{Imp : Sdk.Imports}.

(** Each operation is awaited before the next is called. *)
Definition run_all (ops : list Op) (w : World Client) : World Client :=
  fold_left (fun w op => snd (method op w)) ops w.

End Runs.

End Sequential.

(** ** A small pool to run the facade against

    One choice of the imported functions, used for the concrete runs
    below: the ledger is the list of instructions submitted so far, a
    note found by a scan is its amount, and every remote call succeeds.
    The curve arithmetic behind [Keypair.fromSecretKey] is replaced by a
    stand-in ([seed_public_key]); its length check is the library's. *)

Module Scenario.

#[export] Instance externals : Externals :=
  {| Connection := string;
     EncryptionService := list Z;
     LightWasm := unit;
     Utxo := Z;
     Ledger := list PoolModel.Instruction |}.

Definition submit (i : PoolModel.Instruction) : M Outer string :=
  fun o =>
    (Return "signature"%string,
     {| storage := storage o; ledger := ledger o ++ [i]; output := output o |}).

Definition seed_public_key (seed : list Z) : list Z := seed.

Definition total (utxos : list Z) : Z := fold_right Z.add 0 utxos.

#[export] Instance imports : Sdk.Imports :=
  {| Sdk.WasmFactory_getInstance := ret tt;
     Sdk.deposit := fun _ => ret {| DepositResult.tx := "signature" |};
     Sdk.depositV2 := PoolModel.depositV2 submit;
     Sdk.depositSPL := fun _ => ret {| DepositResult.tx := "signature" |};
     Sdk.depositSPLV2 := PoolModel.depositSPLV2 submit;
     Sdk.withdraw := fun p =>
       ret {| WithdrawResult.isPartial := false;
              WithdrawResult.tx := "signature";
              WithdrawResult.recipient := toBase58 (WithdrawParams.recipient p);
              WithdrawResult.amount_in_lamports :=
                WithdrawParams.amount_in_lamports p;
              WithdrawResult.fee_in_lamports := 0 |};
     Sdk.withdrawSPL := fun p =>
       ret {| WithdrawSPLResult.isPartial := false;
              WithdrawSPLResult.tx := "signature";
              WithdrawSPLResult.recipient :=
                toBase58 (WithdrawSPLParams.recipient p);
              WithdrawSPLResult.base_units := WithdrawSPLParams.base_units p;
              WithdrawSPLResult.fee_base_units := 0 |};
     Sdk.getUtxos := fun _ => ret [700; 300];
     Sdk.getBalanceFromUtxos := fun utxos => {| Balance.lamports := total utxos |};
     Sdk.localstorageKey := toBase58;
     Sdk.getUtxosSPL := fun _ => ret [5000000];
     Sdk.getBalanceFromUtxosSPL := fun utxos =>
       {| BalanceSPL.base_units := total utxos; BalanceSPL.lamports := total utxos |};
     Sdk.localstorageKeySPL := toBase58;
     Sdk.getAssociatedTokenAddress := fun mint owner =>
       Return {| toBytes := map (fun '(a, b) => Z.lxor a b)
                                (combine (toBytes mint) (toBytes owner)) |};
     Sdk.Connection_new := fun url _ => Return url;
     Sdk.Keypair_fromSecretKey := Web3.Keypair_fromSecretKey seed_public_key;
     Sdk.deriveEncryptionKeyFromPrivyWallet := fun w =>
       ret (toBytes (PrivyWallet.publicKey w));
     Sdk.deriveEncryptionKeyFromWallet := fun k => Return (kp_secretKey k);
     Sdk.path_join := String.concat "/";
     Sdk.import_meta_dirname := "/sdk/dist" |}.

Definition owner_key : PublicKey := DEPLOYER_ID.

Definition fee_address : string :=
  "AWexibGxNFKTa1b5R5MN4PJr9HWnWRwf8EW9g8cLx3dM".

Definition client : PrivacyCashV2.Client :=
  {| PrivacyCashV2.connection := "https://api.mainnet-beta.solana.com"%string;
     PrivacyCashV2.publicKey := owner_key;
     PrivacyCashV2.encryptionService := toBytes owner_key;
     PrivacyCashV2.privyWallet :=
       {| PrivyWallet.publicKey := owner_key;
          PrivyWallet.privyClient :=
            {| PrivyWallet.appId := "app";
               PrivyWallet.appSecret := "secret";
               PrivyWallet.authorizationPrivateKey := "key" |};
          PrivyWallet.walletId := "wallet" |};
     PrivacyCashV2.isRunning := Some false |}.

Definition cache : gmap string string :=
  <[ (LSK_FETCH_OFFSET +:+ toBase58 owner_key)%string := "20000"%string ]>
    (<[ (LSK_ENCRYPTED_OUTPUTS +:+ toBase58 owner_key)%string := "[]"%string ]>
       (<[ "other"%string := "kept"%string ]> ∅)).

Definition world0 : World PrivacyCashV2.Client :=
  {| this := client;
     outer := {| storage := cache; ledger := []; output := [] |};
     calls := [] |}.

Definition idle : EventLoop.Loop :=
  {| EventLoop.world := world0; EventLoop.pending := [] |}.

Definition keypair : Keypair :=
  {| kp_publicKey := owner_key; kp_secretKey := repeat 7 64 |}.

Definition keypair_client : PrivacyCash.Client :=
  {| PrivacyCash.connection := "https://api.mainnet-beta.solana.com"%string;
     PrivacyCash.publicKey := owner_key;
     PrivacyCash.encryptionService := repeat 7 64;
     PrivacyCash.keypair := keypair;
     PrivacyCash.isRuning := false |}.

Definition world1 : World PrivacyCash.Client :=
  {| this := keypair_client;
     outer := {| storage := cache; ledger := []; output := [] |};
     calls := [] |}.

(** The same pool when the hasher cannot be loaded. *)
Definition imports_without_wasm : Sdk.Imports :=
  {| Sdk.WasmFactory_getInstance := throw (Error "wasm unavailable");
     Sdk.deposit := @Sdk.deposit _ imports;
     Sdk.depositV2 := @Sdk.depositV2 _ imports;
     Sdk.depositSPL := @Sdk.depositSPL _ imports;
     Sdk.depositSPLV2 := @Sdk.depositSPLV2 _ imports;
     Sdk.withdraw := @Sdk.withdraw _ imports;
     Sdk.withdrawSPL := @Sdk.withdrawSPL _ imports;
     Sdk.getUtxos := @Sdk.getUtxos _ imports;
     Sdk.getBalanceFromUtxos := @Sdk.getBalanceFromUtxos _ imports;
     Sdk.localstorageKey := @Sdk.localstorageKey _ imports;
     Sdk.getUtxosSPL := @Sdk.getUtxosSPL _ imports;
     Sdk.getBalanceFromUtxosSPL := @Sdk.getBalanceFromUtxosSPL _ imports;
     Sdk.localstorageKeySPL := @Sdk.localstorageKeySPL _ imports;
     Sdk.getAssociatedTokenAddress := @Sdk.getAssociatedTokenAddress _ imports;
     Sdk.Connection_new := @Sdk.Connection_new _ imports;
     Sdk.Keypair_fromSecretKey := @Sdk.Keypair_fromSecretKey _ imports;
     Sdk.deriveEncryptionKeyFromPrivyWallet :=
       @Sdk.deriveEncryptionKeyFromPrivyWallet _ imports;
     Sdk.deriveEncryptionKeyFromWallet := @Sdk.deriveEncryptionKeyFromWallet _ imports;
     Sdk.path_join := @Sdk.path_join _ imports;
     Sdk.import_meta_dirname := @Sdk.import_meta_dirname _ imports |}.

(** A wallet service that signs every transaction but the empty one. *)
Definition sign_service (walletId : string) (tx : list Z)
    : completion (PrivySigning.SignTransactionResponse (Transaction := list Z)) :=
  match tx with
  | [] => Throw (Error "empty transaction")
  | _ => Return {| PrivySigning.signedTransaction := 1 :: tx |}
  end.

(** A stand-in for the Privy package: it takes any application id and
    secret that are not empty, and an authorization key only when it
    starts with [wallet-auth:]. *)
Definition privy_package : PrivyWallet.Package :=
  {| PrivyWallet.PrivyClient_new := fun appId appSecret =>
       if truthy_string appId && truthy_string appSecret
       then Return tt
       else Throw (Error "missing app credentials");
     PrivyWallet.walletApi_updateAuthorizationKey := fun key =>
       if String.prefix "wallet-auth:" key
       then Return tt
       else Throw (Error "invalid authorization key") |}.

Definition config_with (authorizationPrivateKey : string)
    : PrivacyCashV2.PrivacyCashV2Config :=
  {| PrivacyCashV2.RPC_url := "https://api.mainnet-beta.solana.com";
     PrivacyCashV2.walletId := "wallet";
     PrivacyCashV2.cfg_publicKey := inl fee_address;
     PrivacyCashV2.privy :=
       {| PrivyWallet.appId := "app";
          PrivyWallet.appSecret := "secret";
          PrivyWallet.authorizationPrivateKey := authorizationPrivateKey |};
     PrivacyCashV2.enableDebug := None |}.

Definition config : PrivacyCashV2.PrivacyCashV2Config :=
  config_with "wallet-auth:MIGHAgEAMBMGByqGSM49AgEGCCqGSM49AwEHBG0wawIBAQQg".


(** A keypair client on the key, connection and encryption service of
    [client]. *)
Definition keypair_twin : PrivacyCash.Client :=
  {| PrivacyCash.connection := "https://api.mainnet-beta.solana.com"%string;
     PrivacyCash.publicKey := owner_key;
     PrivacyCash.encryptionService := toBytes owner_key;
     PrivacyCash.keypair := keypair;
     PrivacyCash.isRuning := false |}.

Definition world2 : World PrivacyCash.Client :=
  {| this := keypair_twin;
     outer := {| storage := cache; ledger := []; output := [] |};
     calls := [] |}.

End Scenario.

(** ** The properties as the description of the system words them

    Four sentences of the description are stated here as they are
    written; each is compared with the code further down. *)

Module Described.
Import PrivacyCashV2 EventLoop.

(** At most one deposit or withdrawal is in flight at a time: a call made
    while one is in flight (the flag reads true) does not begin a second. *)
Definition one_mutation_at_a_time `{Imp : Sdk.Imports} : Prop :=
  forall (l : Loop) (op : Op),
    isOperationRunning (this (world l)) = true ->
    (1 <= in_flight l)%nat ->
    mutating op = true ->
    (in_flight (call op l) <= 1)%nat.

(** The native and the per-asset balance resolve to objects of one
    shape, a single amount. *)
Definition balances_share_single_amount `{Imp : Sdk.Imports} : Prop :=
  forall (w : World Client) (mint : option PublicKey) r rs w1 w2,
    getPrivateBalance w = (Return r, w1) ->
    getPrivateBalanceSPL mint w = (Return rs, w2) ->
    Shape.single_amount (Shape.of_Balance r) = true
    /\ Shape.single_amount (Shape.of_BalanceSPL rs) = true
    /\ Shape.keys (Shape.of_Balance r) = Shape.keys (Shape.of_BalanceSPL rs).

(** The bytes an owner argument stands for, when it is not a [Keypair]. *)
Definition decodes_to (secret : PrivacyCash.Secret) (bytes : list Z) : Prop :=
  match secret with
  | PrivacyCash.OfKeypair _ => False
  | PrivacyCash.OfString text => Bs58.decode text = Return bytes
  | PrivacyCash.OfUint8Array b => bytes = b
  | PrivacyCash.OfNumbers numbers => bytes = map ToUint8 numbers
  end.

(** An owner of 32 or 64 bytes yields a keypair. *)
Definition key_bytes_yield_keypair `{Imp : Sdk.Imports} : Prop :=
  forall (secret : PrivacyCash.Secret) (bytes : list Z),
    decodes_to secret bytes ->
    List.length bytes = 32%nat \/ List.length bytes = 64%nat ->
    exists k, PrivacyCash.getSolanaKeypair secret = Some k.

(** A recipient address that is supplied is the one decoded and used. *)
Definition supplied_recipient_is_decoded `{Imp : Sdk.Imports} : Prop :=
  forall (a : WithdrawArgs) (text : string) (w : World Client) res w',
    recipientAddress a = Some text ->
    withdraw a w = (Return res, w') ->
    exists p, calls w' = calls w ++ [Sdk.CallWithdraw p]
              /\ PublicKey_new text = Return (WithdrawParams.recipient p).

End Described.

(** * Properties *)

(** ** The monad *)

Section MonadFacts.
Context {S : Type}.

Lemma bind_Return {A B} (m : M S A) (k : A -> M S B) s a s' :
  m s = (Return a, s') -> bind m k s = k a s'.
Proof. intros E. unfold bind. rewrite E. reflexivity. Qed.

Lemma bind_Throw {A B} (m : M S A) (k : A -> M S B) s e s' :
  m s = (Throw e, s') -> bind m k s = (Throw e, s').
Proof. intros E. unfold bind. rewrite E. reflexivity. Qed.

(** Mapping the value a computation returns leaves its final state. *)
Lemma snd_bind_ret {A B} (m : M S A) (f : A -> B) s :
  snd (bind m (fun a => ret (f a)) s) = snd (m s).
Proof. unfold bind, ret. destruct (m s) as [[a | e] s']; reflexivity. Qed.

(** When the [finally] block cannot throw, the state after
    [try]/[finally] is the block run on whatever state the body left. *)
Lemma snd_try_finally {A} (body : M S A) (f : S -> S) s :
  snd (try_finally body (modify f) s) = f (snd (body s)).
Proof. unfold try_finally, modify. destruct (body s) as [r s']. reflexivity. Qed.

Lemma fst_try_finally {A} (body : M S A) (f : S -> S) s :
  fst (try_finally body (modify f) s) = fst (body s).
Proof. unfold try_finally, modify. destruct (body s) as [r s']. reflexivity. Qed.
End MonadFacts.

(** ** Protocol constants *)

(** C5: the batch-size constant used for fetching groups of encrypted
    outputs, [FETCH_UTXOS_GROUP_SIZE], equals 10,000. *)
Theorem fetch_group_size_is_10000 : FETCH_UTXOS_GROUP_SIZE = 10000.
Proof. reflexivity. Qed.

Lemma ToUint8_range (x : Z) : 0 <= ToUint8 x < 256.
Proof. unfold ToUint8. apply Z.mod_pos_bound. reflexivity. Qed.

(** Whatever numbers it is given, a [Buffer] holds bytes. *)
Lemma Buffer_from_bytes (array : list Z) :
  Forall (fun b => 0 <= b < 256) (Buffer_from array).
Proof.
  unfold Buffer_from. induction array as [| x array IH]; simpl.
  - apply List.Forall_nil.
  - apply List.Forall_cons; [apply ToUint8_range | exact IH].
Qed.

(** C6: the native transact discriminator and the SPL transact
    discriminator are each exactly 8 bytes long (every element a byte),
    and the two constants are distinct. *)
Theorem discriminators_8_bytes_distinct :
  List.length TRANSACT_IX_DISCRIMINATOR = 8%nat
  /\ List.length TRANSACT_SPL_IX_DISCRIMINATOR = 8%nat
  /\ Forall (fun b => 0 <= b < 256) TRANSACT_IX_DISCRIMINATOR
  /\ Forall (fun b => 0 <= b < 256) TRANSACT_SPL_IX_DISCRIMINATOR
  /\ TRANSACT_IX_DISCRIMINATOR <> TRANSACT_SPL_IX_DISCRIMINATOR.
Proof.
  repeat split; try reflexivity.
  - apply Buffer_from_bytes.
  - apply Buffer_from_bytes.
  - intros E. vm_compute in E. discriminate E.
Qed.

(** ** The cache *)

Section CacheFacts.
Context `{Imp : Sdk.Imports}.
Import PrivacyCashV2.

(** The two purposes never give the same key, whatever follows them. *)
Lemma cache_keys_differ (a b : string) :
  (LSK_FETCH_OFFSET +:+ a)%string <> (LSK_ENCRYPTED_OUTPUTS +:+ b)%string.
Proof. unfold LSK_FETCH_OFFSET, LSK_ENCRYPTED_OUTPUTS. simpl. discriminate. Qed.

Lemma lookup_delete_two (m : gmap string string) (k1 k2 k : string) :
  delete k2 (delete k1 m) !! k
  = if decide (k = k1 \/ k = k2) then None else m !! k.
Proof.
  destruct (decide (k = k1 \/ k = k2)) as [[-> | ->] | N].
  - destruct (decide (k1 = k2)) as [-> | D].
    + apply lookup_delete_eq.
    + rewrite lookup_delete_ne by congruence. apply lookup_delete_eq.
  - apply lookup_delete_eq.
  - rewrite !lookup_delete_ne; [reflexivity | intros ->; tauto | intros ->; tauto].
Qed.

Lemma clearCache_run (w : World Client) :
  clearCache w
  = (Return tt,
     {| this := this w;
        outer :=
          {| storage :=
               delete (LSK_ENCRYPTED_OUTPUTS +:+ Sdk.localstorageKey (publicKey (this w)))%string
                 (delete (LSK_FETCH_OFFSET +:+ Sdk.localstorageKey (publicKey (this w)))%string
                    (storage (outer w)));
             ledger := ledger (outer w);
             output := output (outer w) |};
        calls := calls w |}).
Proof. reflexivity. Qed.

Lemma clearCacheSPL_run (mint : option PublicKey) (w : World Client) :
  clearCacheSPL mint w
  = match Sdk.getAssociatedTokenAddress (or_USDC_MINT mint) (publicKey (this w)) with
    | Return ata =>
        (Return tt,
         {| this := this w;
            outer :=
              {| storage :=
                   delete (LSK_ENCRYPTED_OUTPUTS +:+ Sdk.localstorageKeySPL ata)%string
                     (delete (LSK_FETCH_OFFSET +:+ Sdk.localstorageKeySPL ata)%string
                        (storage (outer w)));
                 ledger := ledger (outer w);
                 output := output (outer w) |};
            calls := calls w |})
    | Throw e => (Throw e, w)
    end.
Proof.
  unfold clearCacheSPL, bind, get, lift. simpl.
  destruct (Sdk.getAssociatedTokenAddress _ _); reflexivity.
Qed.
End CacheFacts.

(** C7: [clearCache] removes the fetch-offset entry and the
    encrypted-outputs entry keyed by the owner's public key (two distinct
    keys) and leaves every other cache key, the client, the ledger and the
    log as they were; [clearCacheSPL] does the same for the two entries
    keyed by the owner's associated token address for the given mint
    (USDC by default), and changes nothing when that address cannot be
    derived. *)
Theorem clearCache_removes_two_entries `{Imp : Sdk.Imports}
    (w : World PrivacyCashV2.Client) (mint : option PublicKey) :
  let own := PrivacyCashV2.publicKey (this w) in
  let k1 := (LSK_FETCH_OFFSET +:+ Sdk.localstorageKey own)%string in
  let k2 := (LSK_ENCRYPTED_OUTPUTS +:+ Sdk.localstorageKey own)%string in
  let w' := snd (PrivacyCashV2.clearCache w) in
  (k1 <> k2
   /\ (forall k : string,
         storage (outer w') !! k
         = if decide (k = k1 \/ k = k2) then None else storage (outer w) !! k)
   /\ this w' = this w
   /\ ledger (outer w') = ledger (outer w)
   /\ output (outer w') = output (outer w))
  /\ match Sdk.getAssociatedTokenAddress (PrivacyCashV2.or_USDC_MINT mint) own with
     | Return ata =>
         let a1 := (LSK_FETCH_OFFSET +:+ Sdk.localstorageKeySPL ata)%string in
         let a2 := (LSK_ENCRYPTED_OUTPUTS +:+ Sdk.localstorageKeySPL ata)%string in
         let v := snd (PrivacyCashV2.clearCacheSPL mint w) in
         a1 <> a2
         /\ (forall k : string,
               storage (outer v) !! k
               = if decide (k = a1 \/ k = a2) then None else storage (outer w) !! k)
         /\ this v = this w
         /\ ledger (outer v) = ledger (outer w)
         /\ output (outer v) = output (outer w)
     | Throw e => PrivacyCashV2.clearCacheSPL mint w = (Throw e, w)
     end.
Proof.
  cbv zeta. split.
  - rewrite clearCache_run. simpl.
    split; [apply cache_keys_differ |].
    split; [intros k; apply lookup_delete_two |]. auto.
  - rewrite clearCacheSPL_run.
    destruct (Sdk.getAssociatedTokenAddress _ _) as [ata | e]; [| reflexivity].
    simpl. split; [apply cache_keys_differ |].
    split; [intros k; apply lookup_delete_two |]. auto.
Qed.

(** ** The running flag *)

Section FlagFacts.
Context `{Imp : Sdk.Imports}.
Import PrivacyCashV2 EventLoop.

(** The part of a method that runs at the call cannot throw. *)
Lemma enter_returns (op : Op) (w : World Client) : fst (enter op w) = Return tt.
Proof. destruct op; reflexivity. Qed.

(** It sets the flag and logs one line; nothing else changes. *)
Lemma enter_sets_flag (op : Op) (w : World Client) :
  isRunning (this (snd (enter op w))) = Some true
  /\ storage (outer (snd (enter op w))) = storage (outer w)
  /\ ledger (outer (snd (enter op w))) = ledger (outer w)
  /\ calls (snd (enter op w)) = calls w.
Proof. destruct op; repeat split; reflexivity. Qed.

(** A method is its synchronous part followed by the rest. *)
Lemma method_enter_rest (op : Op) (w : World Client) :
  method op w = rest op (snd (enter op w)).
Proof. destruct op; reflexivity. Qed.

(** Whatever the body of the [try] block does, the [finally] block
    leaves the flag false. *)
Lemma rest_resets_flag (op : Op) (w : World Client) :
  isRunning (this (snd (rest op w))) = Some false.
Proof.
  destruct op; simpl; rewrite snd_bind_ret;
    unfold deposit_rest, depositV2_rest, withdraw_rest, getPrivateBalance_rest,
      depositSPL_rest, depositSPLV2_rest, withdrawSPL_rest,
      getPrivateBalanceSPL_rest, set_isRunning, set_this;
    rewrite snd_try_finally; reflexivity.
Qed.

(** As the synchronous part returns, a call leaves its method pending. *)
Lemma call_enqueues (op : Op) (l : Loop) :
  call op l = {| world := snd (enter op (world l)); pending := pending l ++ [op] |}.
Proof. destruct op; reflexivity. Qed.

Lemma in_flight_app (ops : list Op) (op : Op) :
  List.length (List.filter mutating (ops ++ [op]))
  = (List.length (List.filter mutating ops) + if mutating op then 1 else 0)%nat.
Proof.
  rewrite List.filter_app, List.length_app. simpl.
  destruct (mutating op); reflexivity.
Qed.
End FlagFacts.

(** C8: once the promise of any of the eight operations settles,
    fulfilled or rejected, [isOperationRunning()] returns false: this
    holds for a method awaited on its own ([method]), whatever the
    imported functions do, and for a pending call of the event loop that
    runs to its end ([settle]). *)
Theorem flag_false_once_settled `{Imp : Sdk.Imports}
    (op : EventLoop.Op) (w : World PrivacyCashV2.Client)
    (l : EventLoop.Loop) (i : nat) :
  PrivacyCashV2.isOperationRunning (this (snd (EventLoop.method op w))) = false
  /\ match EventLoop.settle i l with
     | Some (_, l') =>
         PrivacyCashV2.isOperationRunning (this (EventLoop.world l')) = false
     | None => True
     end.
Proof.
  split.
  - rewrite method_enter_rest. unfold PrivacyCashV2.isOperationRunning.
    rewrite rest_resets_flag. reflexivity.
  - unfold EventLoop.settle. destruct (EventLoop.pending l !! i) as [o |]; [| exact I].
    pose proof (rest_resets_flag o (EventLoop.world l)) as R.
    destruct (EventLoop.rest o (EventLoop.world l)) as [r w']. simpl in *.
    unfold PrivacyCashV2.isOperationRunning. rewrite R. reflexivity.
Qed.

(** C2, as the code has it: the flag is an indicator and not a guard.
    No method reads it: the part of a method that runs at the call never
    throws, and it and the whole method do the same whatever the flag
    holds when the method is called.  So a call always begins its
    operation: the call joins the pending ones, the flag reads true
    afterwards, and the number of deposits and withdrawals in flight
    grows by one when the call is one of them. *)
Theorem call_always_begins `{Imp : Sdk.Imports}
    (op : EventLoop.Op) (l : EventLoop.Loop) :
  (forall (flag : option bool) (w : World PrivacyCashV2.Client),
      fst (EventLoop.enter op w) = Return tt
      /\ EventLoop.enter op (EventLoop.flagged flag w) = EventLoop.enter op w
      /\ EventLoop.method op (EventLoop.flagged flag w) = EventLoop.method op w)
  /\ EventLoop.pending (EventLoop.call op l) = EventLoop.pending l ++ [op]
  /\ PrivacyCashV2.isOperationRunning (this (EventLoop.world (EventLoop.call op l))) = true
  /\ EventLoop.in_flight (EventLoop.call op l)
     = (EventLoop.in_flight l + if EventLoop.mutating op then 1 else 0)%nat.
Proof.
  split.
  - intros flag w. split; [apply enter_returns |].
    assert (E : EventLoop.enter op (EventLoop.flagged flag w) = EventLoop.enter op w)
      by (destruct op; reflexivity).
    split; [exact E |]. rewrite !method_enter_rest, E. reflexivity.
  - rewrite call_enqueues. split; [reflexivity |]. split.
    + unfold PrivacyCashV2.isOperationRunning. simpl.
      destruct (enter_sets_flag op (EventLoop.world l)) as [E _]. rewrite E. reflexivity.
    + unfold EventLoop.in_flight. simpl. apply in_flight_app.
Qed.

(** ** Deposits with a fee *)

(** Unfolds a method of the facade in a hypothesis down to the calls of
    the imported functions. *)
Ltac expose E :=
  unfold PrivacyCashV2.deposit, PrivacyCashV2.depositV2, PrivacyCashV2.withdraw,
    PrivacyCashV2.depositSPL, PrivacyCashV2.depositSPLV2, PrivacyCashV2.withdrawSPL,
    PrivacyCashV2.getPrivateBalance, PrivacyCashV2.getPrivateBalanceSPL,
    PrivacyCashV2.deposit_enter, PrivacyCashV2.depositV2_enter,
    PrivacyCashV2.withdraw_enter, PrivacyCashV2.depositSPL_enter,
    PrivacyCashV2.depositSPLV2_enter, PrivacyCashV2.withdrawSPL_enter,
    PrivacyCashV2.getPrivateBalance_enter, PrivacyCashV2.getPrivateBalanceSPL_enter,
    PrivacyCashV2.deposit_rest, PrivacyCashV2.depositV2_rest,
    PrivacyCashV2.withdraw_rest, PrivacyCashV2.depositSPL_rest,
    PrivacyCashV2.depositSPLV2_rest, PrivacyCashV2.withdrawSPL_rest,
    PrivacyCashV2.getPrivateBalance_rest, PrivacyCashV2.getPrivateBalanceSPL_rest,
    PrivacyCash.withdraw, PrivacyCash.set_isRuning,
    bind, try_finally, PrivacyCashV2.set_isRunning, set_this, logger_info, emit,
    set_outer, modify, WasmFactory_getInstance, lift, get, import, ret in E;
  simpl in E.

(** Splits on the completion of the next awaited call in [E]; the
    branch in which it throws contradicts a fulfilled [E]. *)
Ltac await E :=
  match type of E with
  | context [let (_, _) := ?f ?o in _] =>
      let r := fresh "r" in
      let e := fresh "e" in
      let o' := fresh "o" in
      let Q := fresh "Q" in
      destruct (f o) as [[r | e] o'] eqn:Q; simpl in E; [| discriminate E]
  | context [match ?c with Return _ => _ | Throw _ => _ end] =>
      let k := fresh "k" in
      let e := fresh "e" in
      let Q := fresh "Q" in
      destruct c as [k | e] eqn:Q; simpl in E; [| discriminate E]
  end.

Section FeeFacts.
Context `{Imp : Sdk.Imports}.
Import PrivacyCashV2.

(** A fulfilled [depositV2] is one call of the imported [depositV2], with
    the amounts of the caller and the fee recipient as a key; its result
    is handed back as it is. *)
Lemma depositV2_fulfilled (a : DepositV2Args) (w : World Client) r w' :
  depositV2 a w = (Return r, w') ->
  exists p o o',
    Sdk.depositV2 p o = (Return r, o')
    /\ calls w' = calls w ++ [Sdk.CallDepositV2 p]
    /\ DepositV2Params.totalLamports p = totalLamports a
    /\ DepositV2Params.feeLamports p = feeLamports a
    /\ feeRecipientPubkey (feeRecipient a) = Return (DepositV2Params.feeRecipient p)
    /\ DepositV2Params.publicKey p = publicKey (this w).
Proof.
  intros E. expose E. await E. await E. await E.
  inversion E; subst; clear E.
  do 3 eexists. split; [exact Q1 |]. simpl. repeat split.
Qed.

Lemma depositSPLV2_fulfilled (a : DepositSPLV2Args) (w : World Client) r w' :
  depositSPLV2 a w = (Return r, w') ->
  exists p o o',
    Sdk.depositSPLV2 p o = (Return r, o')
    /\ calls w' = calls w ++ [Sdk.CallDepositSPLV2 p]
    /\ DepositSPLV2Params.totalBaseUnits p = totalBaseUnits a
    /\ DepositSPLV2Params.feeBaseUnits p = feeBaseUnits a
    /\ feeRecipientPubkey (splv2_feeRecipient a)
       = Return (DepositSPLV2Params.feeRecipient p)
    /\ DepositSPLV2Params.mintAddress p = or_USDC_MINT (splv2_mintAddress a)
    /\ DepositSPLV2Params.publicKey p = publicKey (this w).
Proof.
  intros E. expose E. await E. await E. await E.
  inversion E; subst; clear E.
  do 3 eexists. split; [exact Q1 |]. simpl. repeat split.
Qed.
End FeeFacts.

(** C1: with the imported deposit-with-fee functions as they are
    described, a fulfilled [depositV2] of total [T] and fee [F] reports a
    deposit of [T - F] and a fee of [F], and the transaction it submitted
    carries a note worth [T - F] and a transfer of [F] to the fee
    recipient; the same holds for [depositSPLV2] in base units. *)
Theorem deposit_with_fee_split `{Ext : Externals} (imp : Sdk.Imports)
    (submit : PoolModel.Instruction -> M Outer string) :
  (forall (a : PrivacyCashV2.DepositV2Args) (w : World PrivacyCashV2.Client) r w',
      PrivacyCashV2.depositV2 (Imp := PoolModel.with_fee_deposits submit imp) a w
      = (Return r, w') ->
      DepositV2Result.depositLamports r
      = PrivacyCashV2.totalLamports a - PrivacyCashV2.feeLamports a
      /\ DepositV2Result.feeLamports r = PrivacyCashV2.feeLamports a
      /\ exists to o o',
          PrivacyCashV2.feeRecipientPubkey (PrivacyCashV2.feeRecipient a) = Return to
          /\ submit
               {| PoolModel.discriminator := TRANSACT_IX_DISCRIMINATOR;
                  PoolModel.output_note :=
                    {| PoolModel.amount :=
                         PrivacyCashV2.totalLamports a - PrivacyCashV2.feeLamports a;
                       PoolModel.assetId := None;
                       PoolModel.ownerKey := PrivacyCashV2.publicKey (this w) |};
                  PoolModel.fee_transfer :=
                    Some {| PoolModel.fee_to := to;
                            PoolModel.fee_amount := PrivacyCashV2.feeLamports a |} |} o
             = (Return (DepositV2Result.tx r), o'))
  /\ (forall (a : PrivacyCashV2.DepositSPLV2Args) (w : World PrivacyCashV2.Client) r w',
      PrivacyCashV2.depositSPLV2 (Imp := PoolModel.with_fee_deposits submit imp) a w
      = (Return r, w') ->
      DepositSPLV2Result.depositBaseUnits r
      = PrivacyCashV2.totalBaseUnits a - PrivacyCashV2.feeBaseUnits a
      /\ DepositSPLV2Result.feeBaseUnits r = PrivacyCashV2.feeBaseUnits a
      /\ exists to o o',
          PrivacyCashV2.feeRecipientPubkey (PrivacyCashV2.splv2_feeRecipient a)
          = Return to
          /\ submit
               {| PoolModel.discriminator := TRANSACT_SPL_IX_DISCRIMINATOR;
                  PoolModel.output_note :=
                    {| PoolModel.amount :=
                         PrivacyCashV2.totalBaseUnits a - PrivacyCashV2.feeBaseUnits a;
                       PoolModel.assetId :=
                         Some (PrivacyCashV2.or_USDC_MINT
                                 (PrivacyCashV2.splv2_mintAddress a));
                       PoolModel.ownerKey := PrivacyCashV2.publicKey (this w) |};
                  PoolModel.fee_transfer :=
                    Some {| PoolModel.fee_to := to;
                            PoolModel.fee_amount := PrivacyCashV2.feeBaseUnits a |} |} o
             = (Return (DepositSPLV2Result.tx r), o')).
Proof.
  split; intros a w r w' E.
  - apply depositV2_fulfilled in E.
    destruct E as (p & o & o' & R & _ & HT & HF & HP & HK).
    simpl in R. unfold PoolModel.depositV2, bind, ret in R.
    rewrite HT, HF, HK in R.
    destruct (submit _ o) as [[tx | e] o1] eqn:S; [| discriminate R].
    inversion R; subst; clear R. simpl.
    split; [reflexivity |]. split; [reflexivity |].
    exists (DepositV2Params.feeRecipient p), o, o'. split; [exact HP | exact S].
  - apply depositSPLV2_fulfilled in E.
    destruct E as (p & o & o' & R & _ & HT & HF & HP & HM & HK).
    simpl in R. unfold PoolModel.depositSPLV2, bind, ret in R.
    rewrite HT, HF, HK, HM in R.
    destruct (submit _ o) as [[tx | e] o1] eqn:S; [| discriminate R].
    inversion R; subst; clear R. simpl.
    split; [reflexivity |]. split; [reflexivity |].
    exists (DepositSPLV2Params.feeRecipient p), o, o'. split; [exact HP | exact S].
Qed.

(** C4: the fee recipient is normalised to a key where the facade is
    entered: handing [depositV2] (or [depositSPLV2]) a base-58 string and
    handing it the [PublicKey] decoded from that string give the same
    run, whatever the imported functions do: the same calls of them with
    the same parameters, the same result and the same final state. *)
Theorem fee_recipient_normalized `{Imp : Sdk.Imports}
    (text : string) (key : PublicKey) :
  PublicKey_new text = Return key ->
  (forall total fee referrer (w : World PrivacyCashV2.Client),
      PrivacyCashV2.depositV2
        {| PrivacyCashV2.totalLamports := total;
           PrivacyCashV2.feeLamports := fee;
           PrivacyCashV2.feeRecipient := inl text;
           PrivacyCashV2.v2_referrer := referrer |} w
      = PrivacyCashV2.depositV2
          {| PrivacyCashV2.totalLamports := total;
             PrivacyCashV2.feeLamports := fee;
             PrivacyCashV2.feeRecipient := inr key;
             PrivacyCashV2.v2_referrer := referrer |} w)
  /\ (forall total fee mint referrer (w : World PrivacyCashV2.Client),
      PrivacyCashV2.depositSPLV2
        {| PrivacyCashV2.totalBaseUnits := total;
           PrivacyCashV2.feeBaseUnits := fee;
           PrivacyCashV2.splv2_feeRecipient := inl text;
           PrivacyCashV2.splv2_mintAddress := mint;
           PrivacyCashV2.splv2_referrer := referrer |} w
      = PrivacyCashV2.depositSPLV2
          {| PrivacyCashV2.totalBaseUnits := total;
             PrivacyCashV2.feeBaseUnits := fee;
             PrivacyCashV2.splv2_feeRecipient := inr key;
             PrivacyCashV2.splv2_mintAddress := mint;
             PrivacyCashV2.splv2_referrer := referrer |} w).
Proof.
  intros D. split; intros.
  - unfold PrivacyCashV2.depositV2, PrivacyCashV2.depositV2_rest,
      PrivacyCashV2.feeRecipientPubkey. simpl. rewrite D. reflexivity.
  - unfold PrivacyCashV2.depositSPLV2, PrivacyCashV2.depositSPLV2_rest,
      PrivacyCashV2.feeRecipientPubkey. simpl. rewrite D. reflexivity.
Qed.

(** ** Withdrawals *)

Section WithdrawFacts.
Context `{Imp : Sdk.Imports}.

(** What [recipientAddress ? new PublicKey(recipientAddress) :
    this.publicKey] evaluates to, case by case. *)
Lemma recipient_of_cases (recipientAddress : option string) (own key : PublicKey) :
  PrivacyCashV2.recipient_of recipientAddress own = Return key ->
  (recipientAddress = None -> key = own)
  /\ (recipientAddress = Some ""%string -> key = own)
  /\ (forall text, recipientAddress = Some text -> text <> ""%string ->
                   PublicKey_new text = Return key).
Proof.
  intros R. unfold PrivacyCashV2.recipient_of in R.
  destruct recipientAddress as [[| c text] |]; simpl in R.
  - inversion R; subst. repeat split; congruence.
  - repeat split; try discriminate.
    intros text' E N. inversion E; subst. exact R.
  - inversion R; subst. repeat split; congruence.
Qed.

Lemma recipient_of_same (recipientAddress : option string) (own : PublicKey) :
  PrivacyCash.recipient_of recipientAddress own
  = PrivacyCashV2.recipient_of recipientAddress own.
Proof. reflexivity. Qed.

Lemma withdraw_fulfilled (a : PrivacyCashV2.WithdrawArgs)
    (w : World PrivacyCashV2.Client) res w' :
  PrivacyCashV2.withdraw a w = (Return res, w') ->
  exists p o o',
    Sdk.withdraw p o = (Return res, o')
    /\ calls w' = calls w ++ [Sdk.CallWithdraw p]
    /\ PrivacyCashV2.recipient_of (PrivacyCashV2.recipientAddress a)
         (PrivacyCashV2.publicKey (this w))
       = Return (WithdrawParams.recipient p)
    /\ WithdrawParams.amount_in_lamports p = PrivacyCashV2.w_lamports a
    /\ output (outer w')
       = output o' ++ [ConsoleWithdraw (WithdrawParams.recipient p)
                         (WithdrawResult.amount_in_lamports res)
                         (WithdrawResult.fee_in_lamports res)].
Proof.
  intros E. expose E. await E. await E. await E.
  inversion E; subst; clear E.
  do 3 eexists. split; [exact Q1 |]. simpl. repeat split.
Qed.

Lemma withdrawSPL_fulfilled (a : PrivacyCashV2.WithdrawSPLArgs)
    (w : World PrivacyCashV2.Client) res w' :
  PrivacyCashV2.withdrawSPL a w = (Return res, w') ->
  exists p o o',
    Sdk.withdrawSPL p o = (Return res, o')
    /\ calls w' = calls w ++ [Sdk.CallWithdrawSPL p]
    /\ PrivacyCashV2.recipient_of (PrivacyCashV2.w_recipientAddress a)
         (PrivacyCashV2.publicKey (this w))
       = Return (WithdrawSPLParams.recipient p)
    /\ WithdrawSPLParams.base_units p = PrivacyCashV2.w_baseUnits a
    /\ output (outer w')
       = output o' ++ [ConsoleWithdrawSPL (WithdrawSPLParams.recipient p)
                         (WithdrawSPLResult.base_units res)
                         (WithdrawSPLResult.fee_base_units res)].
Proof.
  intros E. expose E. await E. await E. await E.
  inversion E; subst; clear E.
  do 3 eexists. split; [exact Q1 |]. simpl. repeat split.
Qed.

Lemma withdraw_v1_fulfilled (a : PrivacyCash.WithdrawArgs)
    (w : World PrivacyCash.Client) res w' :
  PrivacyCash.withdraw a w = (Return res, w') ->
  exists p o o',
    Sdk.withdraw p o = (Return res, o')
    /\ calls w' = calls w ++ [Sdk.CallWithdraw p]
    /\ PrivacyCash.recipient_of (PrivacyCash.recipientAddress a)
         (PrivacyCash.publicKey (this w))
       = Return (WithdrawParams.recipient p)
    /\ WithdrawParams.amount_in_lamports p = PrivacyCash.lamports a
    /\ output (outer w')
       = output o' ++ [ConsoleWithdraw (WithdrawParams.recipient p)
                         (WithdrawResult.amount_in_lamports res)
                         (WithdrawResult.fee_in_lamports res)].
Proof.
  intros E. expose E. await E. await E. await E.
  inversion E; subst; clear E.
  do 3 eexists. split; [exact Q1 |]. simpl. repeat split.
Qed.
End WithdrawFacts.

(** C10, as the code has it: a fulfilled [withdraw] or [withdrawSPL]
    (and [withdraw] of the keypair client) made exactly one call of the
    imported withdraw function and hands back its result.  The recipient
    used for that withdrawal is the client's own public key when
    [recipientAddress] is omitted or is the empty string, and the
    [PublicKey] decoded from it when it is a non-empty string; the line
    the method prints names the same recipient, and so does the result,
    the imported function reporting the recipient it was given. *)
Theorem withdraw_recipient `{Imp : Sdk.Imports} :
  (forall (a : PrivacyCashV2.WithdrawArgs) (w : World PrivacyCashV2.Client) res w',
      PrivacyCashV2.withdraw a w = (Return res, w') ->
      exists p o o',
        Sdk.withdraw p o = (Return res, o')
        /\ calls w' = calls w ++ [Sdk.CallWithdraw p]
        /\ (PrivacyCashV2.recipientAddress a = None ->
            WithdrawParams.recipient p = PrivacyCashV2.publicKey (this w))
        /\ (PrivacyCashV2.recipientAddress a = Some ""%string ->
            WithdrawParams.recipient p = PrivacyCashV2.publicKey (this w))
        /\ (forall text, PrivacyCashV2.recipientAddress a = Some text ->
                         text <> ""%string ->
                         PublicKey_new text = Return (WithdrawParams.recipient p))
        /\ output (outer w')
           = output o' ++ [ConsoleWithdraw (WithdrawParams.recipient p)
                             (WithdrawResult.amount_in_lamports res) (WithdrawResult.fee_in_lamports res)]
        /\ (PoolModel.reports_recipient ->
            WithdrawResult.recipient res = toBase58 (WithdrawParams.recipient p)))
  /\ (forall (a : PrivacyCashV2.WithdrawSPLArgs) (w : World PrivacyCashV2.Client) res w',
      PrivacyCashV2.withdrawSPL a w = (Return res, w') ->
      exists p o o',
        Sdk.withdrawSPL p o = (Return res, o')
        /\ calls w' = calls w ++ [Sdk.CallWithdrawSPL p]
        /\ (PrivacyCashV2.w_recipientAddress a = None ->
            WithdrawSPLParams.recipient p = PrivacyCashV2.publicKey (this w))
        /\ (PrivacyCashV2.w_recipientAddress a = Some ""%string ->
            WithdrawSPLParams.recipient p = PrivacyCashV2.publicKey (this w))
        /\ (forall text, PrivacyCashV2.w_recipientAddress a = Some text ->
                         text <> ""%string ->
                         PublicKey_new text = Return (WithdrawSPLParams.recipient p))
        /\ output (outer w')
           = output o' ++ [ConsoleWithdrawSPL (WithdrawSPLParams.recipient p)
                             (WithdrawSPLResult.base_units res) (WithdrawSPLResult.fee_base_units res)]
        /\ (PoolModel.reports_recipient ->
            WithdrawSPLResult.recipient res = toBase58 (WithdrawSPLParams.recipient p)))
  /\ (forall (a : PrivacyCash.WithdrawArgs) (w : World PrivacyCash.Client) res w',
      PrivacyCash.withdraw a w = (Return res, w') ->
      exists p o o',
        Sdk.withdraw p o = (Return res, o')
        /\ calls w' = calls w ++ [Sdk.CallWithdraw p]
        /\ (PrivacyCash.recipientAddress a = None ->
            WithdrawParams.recipient p = PrivacyCash.publicKey (this w))
        /\ (PrivacyCash.recipientAddress a = Some ""%string ->
            WithdrawParams.recipient p = PrivacyCash.publicKey (this w))
        /\ (forall text, PrivacyCash.recipientAddress a = Some text ->
                         text <> ""%string ->
                         PublicKey_new text = Return (WithdrawParams.recipient p))
        /\ output (outer w')
           = output o' ++ [ConsoleWithdraw (WithdrawParams.recipient p)
                             (WithdrawResult.amount_in_lamports res) (WithdrawResult.fee_in_lamports res)]
        /\ (PoolModel.reports_recipient ->
            WithdrawResult.recipient res = toBase58 (WithdrawParams.recipient p))).
Proof.
  split; [| split]; intros a w res w' E.
  - apply withdraw_fulfilled in E.
    destruct E as (p & o & o' & R & C & K & _ & L).
    exists p, o, o'. split; [exact R |]. split; [exact C |].
    destruct (recipient_of_cases _ _ _ K) as (K1 & K2 & K3).
    repeat (split; [assumption |]).
    intros [M _]. exact (M p o res o' R).
  - apply withdrawSPL_fulfilled in E.
    destruct E as (p & o & o' & R & C & K & _ & L).
    exists p, o, o'. split; [exact R |]. split; [exact C |].
    destruct (recipient_of_cases _ _ _ K) as (K1 & K2 & K3).
    repeat (split; [assumption |]).
    intros [_ M]. exact (M p o res o' R).
  - apply withdraw_v1_fulfilled in E.
    destruct E as (p & o & o' & R & C & K & _ & L).
    rewrite recipient_of_same in K. exists p, o, o'.
    split; [exact R |]. split; [exact C |].
    destruct (recipient_of_cases _ _ _ K) as (K1 & K2 & K3).
    repeat (split; [assumption |]).
    intros [M _]. exact (M p o res o' R).
Qed.

(** ** The owner of a keypair client *)

Lemma bytes_eqb_eq (a b : list Z) : Web3.bytes_eqb a b = true -> a = b.
Proof.
  revert b. induction a as [| x a IH]; intros [| y b] E; simpl in E;
    try reflexivity; try discriminate E.
  apply andb_true_iff in E. destruct E as [E1 E2].
  apply Z.eqb_eq in E1. subst. f_equal. apply IH. exact E2.
Qed.

(** Whatever the curve, [Keypair.fromSecretKey] takes 64 bytes only, and
    refuses 64 bytes whose second half is not the public key of the
    first. *)
Lemma fromSecretKey_refuses (getPublicKey : list Z -> list Z) :
  Web3.Keypair_fromSecretKey getPublicKey (repeat 0 32)
  = Throw (Error "bad secret key size")
  /\ (getPublicKey (repeat 0 32) <> repeat 1 32 ->
      Web3.Keypair_fromSecretKey getPublicKey (repeat 0 32 ++ repeat 1 32)
      = Throw (Error "provided secretKey is invalid")).
Proof.
  split; [reflexivity |]. intros N.
  unfold Web3.Keypair_fromSecretKey. simpl negb. cbv iota.
  change (skipn 32 (repeat 0 32 ++ repeat 1 32)) with (repeat 1 32).
  change (firstn 32 (repeat 0 32 ++ repeat 1 32)) with (repeat 0 32).
  destruct (Web3.bytes_eqb _ _) eqn:E; [| reflexivity].
  apply bytes_eqb_eq in E. congruence.
Qed.

Section OwnerFacts.
Context `{Imp : Sdk.Imports}.
Import PrivacyCash.

Lemma getSolanaKeypair_bytes (secret : Secret) (bytes : list Z) :
  Described.decodes_to secret bytes ->
  getSolanaKeypair secret
  = if negb (Nat.eqb (List.length bytes) 32) && negb (Nat.eqb (List.length bytes) 64)
    then None
    else match Sdk.Keypair_fromSecretKey bytes with
         | Return k => Some k
         | Throw _ => None
         end.
Proof.
  intros D. unfold getSolanaKeypair, getSolanaKeypair_try.
  destruct secret as [k | text | b | numbers]; simpl in D.
  - contradiction.
  - rewrite D. destruct (_ && _); [reflexivity |].
    destruct (Sdk.Keypair_fromSecretKey bytes); reflexivity.
  - subst. destruct (_ && _); [reflexivity |].
    destruct (Sdk.Keypair_fromSecretKey b); reflexivity.
  - subst. destruct (_ && _); [reflexivity |].
    destruct (Sdk.Keypair_fromSecretKey _); reflexivity.
Qed.
End OwnerFacts.

(** C9, as the code has it: a [Keypair] is accepted unchanged; bytes (a
    byte array, a number array taken modulo 256, or the base-58 decoding
    of a string) of length 32 or 64 are handed to [Keypair.fromSecretKey],
    and the keypair is the one that call returns; when that call throws,
    when the length is another one, or when the string is not base-58, no
    keypair is found, and then the constructor throws the error whose
    message is: param "owner" is not a valid Private Key or Keypair.  A
    constructor that returns holds the keypair found and its public key. *)
Theorem owner_to_keypair `{Imp : Sdk.Imports} :
  (forall k, PrivacyCash.getSolanaKeypair (PrivacyCash.OfKeypair k) = Some k)
  /\ (forall secret bytes,
         Described.decodes_to secret bytes ->
         List.length bytes = 32%nat \/ List.length bytes = 64%nat ->
         PrivacyCash.getSolanaKeypair secret
         = match Sdk.Keypair_fromSecretKey bytes with
           | Return k => Some k
           | Throw _ => None
           end)
  /\ (forall secret bytes,
         Described.decodes_to secret bytes ->
         List.length bytes <> 32%nat -> List.length bytes <> 64%nat ->
         PrivacyCash.getSolanaKeypair secret = None)
  /\ (forall text e,
         Bs58.decode text = Throw e ->
         PrivacyCash.getSolanaKeypair (PrivacyCash.OfString text) = None)
  /\ (forall a,
         PrivacyCash.getSolanaKeypair (PrivacyCash.owner a) = None ->
         PrivacyCash.constructor a = Throw PrivacyCash.owner_error)
  /\ (forall a k c,
         PrivacyCash.getSolanaKeypair (PrivacyCash.owner a) = Some k ->
         PrivacyCash.constructor a = Return c ->
         PrivacyCash.keypair c = k
         /\ PrivacyCash.publicKey c = kp_publicKey k
         /\ PrivacyCash.isRuning c = false).
Proof.
  repeat apply conj.
  - reflexivity.
  - intros secret bytes D L. rewrite (getSolanaKeypair_bytes _ _ D).
    destruct L as [L | L]; rewrite L; reflexivity.
  - intros secret bytes D L1 L2. rewrite (getSolanaKeypair_bytes _ _ D).
    apply Nat.eqb_neq in L1, L2. rewrite L1, L2. reflexivity.
  - intros text e D. unfold PrivacyCash.getSolanaKeypair, PrivacyCash.getSolanaKeypair_try.
    rewrite D. reflexivity.
  - intros a N. unfold PrivacyCash.constructor. rewrite N. reflexivity.
  - intros a k c S R. unfold PrivacyCash.constructor in R. rewrite S in R.
    destruct (Sdk.Connection_new _ _); [| discriminate R].
    destruct (Sdk.deriveEncryptionKeyFromWallet k); [| discriminate R].
    inversion R; subst. repeat split.
Qed.

(** ** Balances *)

Section BalanceFacts.
Context `{Imp : Sdk.Imports}.
Import PrivacyCashV2.

Lemma getPrivateBalance_fulfilled (w : World Client) r w' :
  getPrivateBalance w = (Return r, w') ->
  exists p o utxos o',
    Sdk.getUtxos p o = (Return utxos, o')
    /\ r = Sdk.getBalanceFromUtxos utxos
    /\ calls w' = calls w ++ [Sdk.CallGetUtxos p]
    /\ GetUtxosParams.publicKey p = publicKey (this w).
Proof.
  intros E. expose E. await E. inversion E; subst; clear E.
  do 4 eexists. split; [exact Q |]. repeat split.
Qed.

Lemma getPrivateBalanceSPL_fulfilled (mint : option PublicKey) (w : World Client) r w' :
  getPrivateBalanceSPL mint w = (Return r, w') ->
  exists p o utxos o',
    Sdk.getUtxosSPL p o = (Return utxos, o')
    /\ r = Sdk.getBalanceFromUtxosSPL utxos
    /\ calls w' = calls w ++ [Sdk.CallGetUtxosSPL p]
    /\ GetUtxosSPLParams.publicKey p = publicKey (this w)
    /\ GetUtxosSPLParams.mintAddress p = or_USDC_MINT mint.
Proof.
  intros E. expose E. await E. inversion E; subst; clear E.
  do 4 eexists. split; [exact Q |]. repeat split.
Qed.
End BalanceFacts.

(** C3, as the code has it: [getPrivateBalance] resolves to what
    [getBalanceFromUtxos] makes of the notes found, an object with the one
    property [lamports]; [getPrivateBalanceSPL] resolves to what
    [getBalanceFromUtxosSPL] makes of them, an object with the two
    properties [base_units] and [lamports].  Both have [lamports]; the
    shapes differ. *)
Theorem balance_result_shapes `{Imp : Sdk.Imports}
    (w : World PrivacyCashV2.Client) (mint : option PublicKey) :
  (forall r w',
      PrivacyCashV2.getPrivateBalance w = (Return r, w') ->
      (exists p o utxos o',
          Sdk.getUtxos p o = (Return utxos, o')
          /\ r = Sdk.getBalanceFromUtxos utxos)
      /\ Shape.keys (Shape.of_Balance r) = ["lamports"%string]
      /\ Shape.single_amount (Shape.of_Balance r) = true)
  /\ (forall rs w',
      PrivacyCashV2.getPrivateBalanceSPL mint w = (Return rs, w') ->
      (exists p o utxos o',
          Sdk.getUtxosSPL p o = (Return utxos, o')
          /\ rs = Sdk.getBalanceFromUtxosSPL utxos
          /\ GetUtxosSPLParams.mintAddress p = PrivacyCashV2.or_USDC_MINT mint)
      /\ Shape.keys (Shape.of_BalanceSPL rs) = ["base_units"%string; "lamports"%string]
      /\ Shape.single_amount (Shape.of_BalanceSPL rs) = false).
Proof.
  split.
  - intros r w' E. apply getPrivateBalance_fulfilled in E.
    destruct E as (p & o & utxos & o' & G & R & _).
    split; [exists p, o, utxos, o'; split; assumption |]. split; reflexivity.
  - intros rs w' E. apply getPrivateBalanceSPL_fulfilled in E.
    destruct E as (p & o & utxos & o' & G & R & _ & _ & HM).
    split; [exists p, o, utxos, o'; repeat split; assumption |]. split; reflexivity.
Qed.

Section ScenarioRuns.
Import Scenario.

(** C2, as stated, fails: with a deposit in flight and the flag reading
    true, a withdrawal that is called begins all the same; two mutations
    are then in flight, and both run to their end and are fulfilled. *)
Lemma second_mutation_begins :
  let d := EventLoop.Deposit
             {| PrivacyCashV2.lamports := 1000000; PrivacyCashV2.referrer := None |} in
  let x := EventLoop.Withdraw
             {| PrivacyCashV2.w_lamports := 500000;
                PrivacyCashV2.recipientAddress := None |} in
  (PrivacyCashV2.isOperationRunning
     (this (EventLoop.world (EventLoop.call d Scenario.idle))) = true
   /\ EventLoop.in_flight (EventLoop.call d Scenario.idle) = 1%nat
   /\ EventLoop.mutating x = true
   /\ EventLoop.in_flight (EventLoop.call x (EventLoop.call d Scenario.idle)) = 2%nat
   /\ exists r1 l1 r2 l2,
       EventLoop.settle 0 (EventLoop.call x (EventLoop.call d Scenario.idle))
       = Some (Return r1, l1)
       /\ EventLoop.settle 0 l1 = Some (Return r2, l2)
       /\ List.length (calls (EventLoop.world l2)) = 2%nat)
  /\ ~ Described.one_mutation_at_a_time.
Proof.
  cbv zeta. split.
  - repeat split; try reflexivity.
    do 4 eexists. split; [vm_compute; reflexivity |].
    split; [vm_compute; reflexivity | reflexivity].
  - intros H.
    specialize (H (EventLoop.call
                     (EventLoop.Deposit
                        {| PrivacyCashV2.lamports := 1000000;
                           PrivacyCashV2.referrer := None |}) Scenario.idle)
                  (EventLoop.Withdraw
                     {| PrivacyCashV2.w_lamports := 500000;
                        PrivacyCashV2.recipientAddress := None |})
                  eq_refl (le_n 1) eq_refl).
    vm_compute in H. lia.
Qed.


(** A deposit of 1,000,000 lamports in total with a fee of 20,000 to the
    fee address: 980,000 are deposited, and the one instruction on the
    ledger carries 20,000 to the fee recipient. *)
Lemma deposit_with_fee_split_example :
  exists r w',
    PrivacyCashV2.depositV2
      {| PrivacyCashV2.totalLamports := 1000000;
         PrivacyCashV2.feeLamports := 20000;
         PrivacyCashV2.feeRecipient := inl fee_address;
         PrivacyCashV2.v2_referrer := None |} world0
    = (Return r, w')
    /\ DepositV2Result.depositLamports r = 980000
    /\ DepositV2Result.feeLamports r = 20000
    /\ ledger (outer w')
       = [ {| PoolModel.discriminator := TRANSACT_IX_DISCRIMINATOR;
              PoolModel.output_note :=
                {| PoolModel.amount := 980000;
                   PoolModel.assetId := None;
                   PoolModel.ownerKey := owner_key |};
              PoolModel.fee_transfer :=
                Some {| PoolModel.fee_to := FEE_RECIPIENT;
                        PoolModel.fee_amount := 20000 |} |} ]
    /\ exists rs ws,
        PrivacyCashV2.depositSPLV2
          {| PrivacyCashV2.totalBaseUnits := 100000000;
             PrivacyCashV2.feeBaseUnits := 2000000;
             PrivacyCashV2.splv2_feeRecipient := inr FEE_RECIPIENT;
             PrivacyCashV2.splv2_mintAddress := None;
             PrivacyCashV2.splv2_referrer := None |} world0
        = (Return rs, ws)
        /\ DepositSPLV2Result.depositBaseUnits rs = 98000000
        /\ DepositSPLV2Result.feeBaseUnits rs = 2000000.
Proof.
  set (a := {| PrivacyCashV2.totalLamports := 1000000;
               PrivacyCashV2.feeLamports := 20000;
               PrivacyCashV2.feeRecipient := inl fee_address;
               PrivacyCashV2.v2_referrer := None |}).
  destruct (PrivacyCashV2.depositV2 a world0) as [[r | e] w'] eqn:E;
    [| vm_compute in E; discriminate E].
  exists r, w'. split; [reflexivity |].
  destruct (proj1 (deposit_with_fee_split imports submit) a world0 r w' E)
    as (D & F & _).
  split; [rewrite D; reflexivity |]. split; [rewrite F; reflexivity |].
  split; [vm_compute in E; inversion E; reflexivity |].
  set (b := {| PrivacyCashV2.totalBaseUnits := 100000000;
               PrivacyCashV2.feeBaseUnits := 2000000;
               PrivacyCashV2.splv2_feeRecipient := inr FEE_RECIPIENT;
               PrivacyCashV2.splv2_mintAddress := None;
               PrivacyCashV2.splv2_referrer := None |}).
  destruct (PrivacyCashV2.depositSPLV2 b world0) as [[rs | e] ws] eqn:ES;
    [| vm_compute in ES; discriminate ES].
  exists rs, ws. split; [reflexivity |].
  destruct (proj2 (deposit_with_fee_split imports submit) b world0 rs ws ES)
    as (DS & FS & _).
  split; [rewrite DS; reflexivity | rewrite FS; reflexivity].
Defined.

(** The fee address as text and as the key decoded from it. *)
Lemma fee_recipient_normalized_example :
  PublicKey_new fee_address = Return FEE_RECIPIENT
  /\ PrivacyCashV2.depositV2
       {| PrivacyCashV2.totalLamports := 1000000;
          PrivacyCashV2.feeLamports := 20000;
          PrivacyCashV2.feeRecipient := inl fee_address;
          PrivacyCashV2.v2_referrer := None |} world0
     = PrivacyCashV2.depositV2
         {| PrivacyCashV2.totalLamports := 1000000;
            PrivacyCashV2.feeLamports := 20000;
            PrivacyCashV2.feeRecipient := inr FEE_RECIPIENT;
            PrivacyCashV2.v2_referrer := None |} world0
  /\ PrivacyCashV2.depositSPLV2
       {| PrivacyCashV2.totalBaseUnits := 100000000;
          PrivacyCashV2.feeBaseUnits := 2000000;
          PrivacyCashV2.splv2_feeRecipient := inl fee_address;
          PrivacyCashV2.splv2_mintAddress := None;
          PrivacyCashV2.splv2_referrer := None |} world0
     = PrivacyCashV2.depositSPLV2
         {| PrivacyCashV2.totalBaseUnits := 100000000;
            PrivacyCashV2.feeBaseUnits := 2000000;
            PrivacyCashV2.splv2_feeRecipient := inr FEE_RECIPIENT;
            PrivacyCashV2.splv2_mintAddress := None;
            PrivacyCashV2.splv2_referrer := None |} world0.
Proof.
  assert (D : PublicKey_new fee_address = Return FEE_RECIPIENT)
    by (vm_compute; reflexivity).
  split; [exact D |]. split.
  - apply (proj1 (fee_recipient_normalized fee_address FEE_RECIPIENT D)).
  - apply (proj2 (fee_recipient_normalized fee_address FEE_RECIPIENT D)).
Defined.

(** The imported withdraw functions of the scenario report the
    recipient they were given. *)
Lemma scenario_reports_recipient : PoolModel.reports_recipient.
Proof.
  split; intros p o res o' E; injection E as <- _; reflexivity.
Qed.

(** A withdrawal to the fee address, and one with no address given: the
    call made, the recipient used, and the recipient the result reports. *)
Lemma withdraw_recipient_example :
  (exists res w' p,
      PrivacyCashV2.withdraw
        {| PrivacyCashV2.w_lamports := 500000;
           PrivacyCashV2.recipientAddress := Some fee_address |} world0
      = (Return res, w')
      /\ calls w' = [Sdk.CallWithdraw p]
      /\ PublicKey_new fee_address = Return (WithdrawParams.recipient p)
      /\ WithdrawResult.recipient res = toBase58 (WithdrawParams.recipient p))
  /\ (exists res w' p,
      PrivacyCashV2.withdraw
        {| PrivacyCashV2.w_lamports := 500000;
           PrivacyCashV2.recipientAddress := None |} world0
      = (Return res, w')
      /\ calls w' = [Sdk.CallWithdraw p]
      /\ WithdrawParams.recipient p = owner_key
      /\ WithdrawResult.recipient res = toBase58 owner_key)
  /\ (exists res w' p,
      PrivacyCashV2.withdrawSPL
        {| PrivacyCashV2.w_baseUnits := 5000000;
           PrivacyCashV2.w_mintAddress := None;
           PrivacyCashV2.w_recipientAddress := Some fee_address |} world0
      = (Return res, w')
      /\ calls w' = [Sdk.CallWithdrawSPL p]
      /\ PublicKey_new fee_address = Return (WithdrawSPLParams.recipient p)
      /\ WithdrawSPLResult.recipient res
         = toBase58 (WithdrawSPLParams.recipient p))
  /\ (exists res w' p,
      PrivacyCash.withdraw
        {| PrivacyCash.lamports := 500000;
           PrivacyCash.recipientAddress := None |} world1
      = (Return res, w')
      /\ calls w' = [Sdk.CallWithdraw p]
      /\ WithdrawParams.recipient p = owner_key
      /\ WithdrawResult.recipient res = toBase58 owner_key).
Proof.
  split; [| split; [| split]].
  - set (a := {| PrivacyCashV2.w_lamports := 500000;
                 PrivacyCashV2.recipientAddress := Some fee_address |}).
    destruct (PrivacyCashV2.withdraw a world0) as [[res | e] w'] eqn:E;
      [| vm_compute in E; discriminate E].
    destruct (proj1 withdraw_recipient a world0 res w' E)
      as (p & o & o' & _ & C & _ & _ & T & _ & Rp).
    exists res, w', p. split; [reflexivity |]. split; [exact C |].
    split; [| exact (Rp scenario_reports_recipient)].
    apply (T fee_address eq_refl). discriminate.
  - set (a := {| PrivacyCashV2.w_lamports := 500000;
                 PrivacyCashV2.recipientAddress := None |}).
    destruct (PrivacyCashV2.withdraw a world0) as [[res | e] w'] eqn:E;
      [| vm_compute in E; discriminate E].
    destruct (proj1 withdraw_recipient a world0 res w' E)
      as (p & o & o' & _ & C & N & _ & _ & _ & Rp).
    exists res, w', p. split; [reflexivity |]. split; [exact C |].
    split; [exact (N eq_refl) |].
    rewrite (Rp scenario_reports_recipient), (N eq_refl). reflexivity.
  - set (a := {| PrivacyCashV2.w_baseUnits := 5000000;
                 PrivacyCashV2.w_mintAddress := None;
                 PrivacyCashV2.w_recipientAddress := Some fee_address |}).
    destruct (PrivacyCashV2.withdrawSPL a world0) as [[res | e] w'] eqn:E;
      [| vm_compute in E; discriminate E].
    destruct (proj1 (proj2 withdraw_recipient) a world0 res w' E)
      as (p & o & o' & _ & C & _ & _ & T & _ & Rp).
    exists res, w', p. split; [reflexivity |]. split; [exact C |].
    split; [| exact (Rp scenario_reports_recipient)].
    apply (T fee_address eq_refl). discriminate.
  - set (a := {| PrivacyCash.lamports := 500000;
                 PrivacyCash.recipientAddress := None |}).
    destruct (PrivacyCash.withdraw a world1) as [[res | e] w'] eqn:E;
      [| vm_compute in E; discriminate E].
    destruct (proj2 (proj2 withdraw_recipient) a world1 res w' E)
      as (p & o & o' & _ & C & N & _ & _ & _ & Rp).
    exists res, w', p. split; [reflexivity |]. split; [exact C |].
    split; [exact (N eq_refl) |].
    rewrite (Rp scenario_reports_recipient), (N eq_refl). reflexivity.
Defined.

(** C10, as stated, fails: the empty string is an address that is
    supplied, and no key is decoded from it ([new PublicKey] throws on
    it); the withdrawal is made all the same, to the client's own key. *)
Lemma empty_recipient_uses_own_key :
  (PublicKey_new "" = Throw (Error "Invalid public key input")
   /\ exists res w' p,
       PrivacyCashV2.withdraw
         {| PrivacyCashV2.w_lamports := 500000;
            PrivacyCashV2.recipientAddress := Some ""%string |} world0
       = (Return res, w')
       /\ calls w' = [Sdk.CallWithdraw p]
       /\ WithdrawParams.recipient p = owner_key
       /\ WithdrawResult.recipient res = toBase58 owner_key)
  /\ ~ Described.supplied_recipient_is_decoded.
Proof.
  split.
  - split; [reflexivity |].
    do 3 eexists. split; [vm_compute; reflexivity |].
    split; [reflexivity |]. split; vm_compute; reflexivity.
  - intros H.
    set (a := {| PrivacyCashV2.w_lamports := 500000;
                 PrivacyCashV2.recipientAddress := Some ""%string |}).
    destruct (PrivacyCashV2.withdraw a world0) as [[res | e] w'] eqn:E;
      [| vm_compute in E; discriminate E].
    destruct (H a ""%string world0 res w' eq_refl E) as (p & _ & D).
    vm_compute in D. discriminate D.
Qed.

(** Three owners: a [Keypair], held as it is; a 64-byte array that the
    stand-in curve accepts; a string that is not base-58, refused. *)
Lemma owner_to_keypair_example :
  let k := keypair in
  let args := fun o =>
    {| PrivacyCash.RPC_url := "https://api.mainnet-beta.solana.com";
       PrivacyCash.owner := o;
       PrivacyCash.enableDebug := None |} in
  (exists c, PrivacyCash.constructor (args (PrivacyCash.OfKeypair k)) = Return c
             /\ PrivacyCash.keypair c = k
             /\ PrivacyCash.publicKey c = owner_key)
  /\ (exists k', PrivacyCash.getSolanaKeypair (PrivacyCash.OfUint8Array (repeat 7 64))
                 = Some k'
                 /\ Sdk.Keypair_fromSecretKey (repeat 7 64) = Return k')
  /\ PrivacyCash.constructor (args (PrivacyCash.OfString "0O"))
     = Throw PrivacyCash.owner_error.
Proof.
  intros k args.
  destruct (@owner_to_keypair externals imports) as (K & B & _ & S & N & C).
  split; [| split].
  - destruct (PrivacyCash.constructor (args (PrivacyCash.OfKeypair k)))
      as [c | e] eqn:E; [| discriminate E].
    exists c. split; [reflexivity |].
    destruct (C (args (PrivacyCash.OfKeypair k)) k c (K k) E) as (P1 & P2 & _).
    split; [exact P1 | exact P2].
  - eexists. split; [| reflexivity].
    rewrite (B (PrivacyCash.OfUint8Array (repeat 7 64)) (repeat 7 64) eq_refl
               (or_intror eq_refl)).
    reflexivity.
  - apply N. apply (S "0O"%string (Error "Non-base58 character")). reflexivity.
Defined.

(** C9, as stated, fails: bytes of length 32 or 64 pass the length test
    of [getSolanaKeypair] and may still yield no keypair.  64 bytes whose
    second half is not the public key of the first are refused by
    [Keypair.fromSecretKey] (here 32 zeros followed by 32 ones), and so
    are 32 bytes, whatever the curve; the [catch] turns the throw into no
    keypair, and the constructor throws. *)
Lemma thirty_two_bytes_rejected :
  (List.length (repeat 0 32) = 32%nat
   /\ (forall getPublicKey,
         Web3.Keypair_fromSecretKey getPublicKey (repeat 0 32)
         = Throw (Error "bad secret key size"))
   /\ Sdk.Keypair_fromSecretKey (repeat 0 32) = Throw (Error "bad secret key size")
   /\ PrivacyCash.getSolanaKeypair (PrivacyCash.OfUint8Array (repeat 0 32)) = None
   /\ PrivacyCash.constructor
        {| PrivacyCash.RPC_url := "https://api.mainnet-beta.solana.com";
           PrivacyCash.owner := PrivacyCash.OfUint8Array (repeat 0 32);
           PrivacyCash.enableDebug := None |}
      = Throw PrivacyCash.owner_error
   /\ List.length (repeat 0 32 ++ repeat 1 32) = 64%nat
   /\ (forall getPublicKey,
         getPublicKey (repeat 0 32) <> repeat 1 32 ->
         Web3.Keypair_fromSecretKey getPublicKey (repeat 0 32 ++ repeat 1 32)
         = Throw (Error "provided secretKey is invalid"))
   /\ PrivacyCash.constructor
        {| PrivacyCash.RPC_url := "https://api.mainnet-beta.solana.com";
           PrivacyCash.owner :=
             PrivacyCash.OfUint8Array (repeat 0 32 ++ repeat 1 32);
           PrivacyCash.enableDebug := None |}
      = Throw PrivacyCash.owner_error)
  /\ ~ Described.key_bytes_yield_keypair.
Proof.
  split.
  - split; [reflexivity |].
    split; [intros g; apply (proj1 (fromSecretKey_refuses g)) |].
    do 4 (split; [reflexivity |]).
    split; [intros g; apply (proj2 (fromSecretKey_refuses g)) | reflexivity].
  - intros H.
    destruct (H (PrivacyCash.OfUint8Array (repeat 0 32)) (repeat 0 32) eq_refl
                (or_introl eq_refl)) as (k & E).
    discriminate E.
Qed.

(** The two balances of the scenario and the properties of each. *)
Lemma balance_result_shapes_example :
  (exists r w',
      PrivacyCashV2.getPrivateBalance world0 = (Return r, w')
      /\ Shape.keys (Shape.of_Balance r) = ["lamports"%string])
  /\ (exists rs w',
      PrivacyCashV2.getPrivateBalanceSPL None world0 = (Return rs, w')
      /\ Shape.keys (Shape.of_BalanceSPL rs) = ["base_units"%string; "lamports"%string]).
Proof.
  split.
  - destruct (PrivacyCashV2.getPrivateBalance world0) as [[r | e] w'] eqn:E;
      [| vm_compute in E; discriminate E].
    exists r, w'. split; [reflexivity |].
    apply (proj1 (balance_result_shapes world0 None) r w' E).
  - destruct (PrivacyCashV2.getPrivateBalanceSPL None world0) as [[rs | e] w'] eqn:E;
      [| vm_compute in E; discriminate E].
    exists rs, w'. split; [reflexivity |].
    apply (proj2 (balance_result_shapes world0 None) rs w' E).
Defined.

(** C3, as stated, fails: the per-asset balance has two properties,
    [base_units] and [lamports], where the native one has [lamports]
    alone. *)
Lemma balance_shapes_differ :
  (exists r rs w1 w2,
      PrivacyCashV2.getPrivateBalance world0 = (Return r, w1)
      /\ PrivacyCashV2.getPrivateBalanceSPL None world0 = (Return rs, w2)
      /\ Shape.of_Balance r = [("lamports"%string, Shape.Num 1000)]
      /\ Shape.of_BalanceSPL rs
         = [("base_units"%string, Shape.Num 5000000);
            ("lamports"%string, Shape.Num 5000000)]
      /\ Shape.single_amount (Shape.of_BalanceSPL rs) = false
      /\ Shape.keys (Shape.of_Balance r) <> Shape.keys (Shape.of_BalanceSPL rs))
  /\ ~ Described.balances_share_single_amount.
Proof.
  split.
  - do 4 eexists. split; [vm_compute; reflexivity |].
    split; [vm_compute; reflexivity |].
    split; [reflexivity |]. split; [reflexivity |]. split; [reflexivity |].
    discriminate.
  - intros H.
    destruct (PrivacyCashV2.getPrivateBalance world0) as [[r | e] w1] eqn:E1;
      [| vm_compute in E1; discriminate E1].
    destruct (PrivacyCashV2.getPrivateBalanceSPL None world0) as [[rs | e] w2] eqn:E2;
      [| vm_compute in E2; discriminate E2].
    destruct (H world0 None r rs w1 w2 E1 E2) as (_ & S & _).
    discriminate S.
Qed.

(** Clearing the cache of the scenario: the two entries of the owner
    are gone, the third entry is kept. *)
Example clearCache_example :
  storage (outer (snd (PrivacyCashV2.clearCache world0)))
  = <[ "other"%string := "kept"%string ]> ∅.
Proof. vm_compute. reflexivity. Qed.

End ScenarioRuns.

(** * Further properties of the facade *)

(** Splits on every awaited call and every completion the goal tests. *)
Ltac await_all :=
  repeat match goal with
    | |- context [let (_, _) := ?f ?o in _] =>
        destruct (f o) as [[? | ?] ?]; simpl
    | |- context [match ?c with Return _ => _ | Throw _ => _ end] =>
        destruct c; simpl
    end.

Ltac expose_goal :=
  unfold PrivacyCashV2.deposit_rest, PrivacyCashV2.depositV2_rest,
    PrivacyCashV2.withdraw_rest, PrivacyCashV2.depositSPL_rest,
    PrivacyCashV2.depositSPLV2_rest, PrivacyCashV2.withdrawSPL_rest,
    PrivacyCashV2.getPrivateBalance_rest, PrivacyCashV2.getPrivateBalanceSPL_rest,
    PrivacyCash.withdraw, PrivacyCash.deposit, PrivacyCash.getPrivateBalance,
    PrivacyCash.set_isRuning,
    bind, try_finally, PrivacyCashV2.set_isRunning, set_this, logger_info, emit,
    set_outer, modify, WasmFactory_getInstance, lift, get, import, ret;
  simpl.

Section FrameFacts.
Context `{Imp : Sdk.Imports}.
Import PrivacyCashV2 EventLoop.

Lemma rest_this (op : Op) (w : World Client) :
  this (snd (rest op w))
  = {| connection := connection (this w);
       publicKey := publicKey (this w);
       encryptionService := encryptionService (this w);
       privyWallet := privyWallet (this w);
       isRunning := Some false |}.
Proof.
  destruct op; simpl; rewrite snd_bind_ret; expose_goal; await_all; reflexivity.
Qed.

Lemma enter_this (op : Op) (w : World Client) :
  this (snd (enter op w))
  = {| connection := connection (this w);
       publicKey := publicKey (this w);
       encryptionService := encryptionService (this w);
       privyWallet := privyWallet (this w);
       isRunning := Some true |}.
Proof. destruct op; reflexivity. Qed.

Lemma method_this (op : Op) (w : World Client) :
  this (snd (method op w))
  = {| connection := connection (this w);
       publicKey := publicKey (this w);
       encryptionService := encryptionService (this w);
       privyWallet := privyWallet (this w);
       isRunning := Some false |}.
Proof. rewrite method_enter_rest, rest_this, enter_this. reflexivity. Qed.
End FrameFacts.

Section SequentialFacts.
Context `{Imp : Sdk.Imports}.
Import PrivacyCashV2 EventLoop Sequential.

Lemma run_all_this (ops : list Op) (w : World Client) :
  this (run_all ops w)
  = {| connection := connection (this w);
       publicKey := publicKey (this w);
       encryptionService := encryptionService (this w);
       privyWallet := privyWallet (this w);
       isRunning := match ops with [] => isRunning (this w) | _ => Some false end |}.
Proof.
  revert w. induction ops as [| op ops IH]; intros w.
  - simpl. destruct (this w); reflexivity.
  - simpl. rewrite IH, method_this. simpl. destruct ops; reflexivity.
Qed.
End SequentialFacts.

(** X1: a client used by one caller at a time (each operation awaited
    before the next is called) keeps its connection, public key,
    encryption service and wallet through any sequence of the eight
    operations, whatever the imported functions do; after a sequence that
    is not empty [isOperationRunning()] returns false. *)
Theorem sequential_use_keeps_client `{Imp : Sdk.Imports}
    (ops : list EventLoop.Op) (w : World PrivacyCashV2.Client) :
  PrivacyCashV2.connection (this (Sequential.run_all ops w))
  = PrivacyCashV2.connection (this w)
  /\ PrivacyCashV2.publicKey (this (Sequential.run_all ops w))
     = PrivacyCashV2.publicKey (this w)
  /\ PrivacyCashV2.encryptionService (this (Sequential.run_all ops w))
     = PrivacyCashV2.encryptionService (this w)
  /\ PrivacyCashV2.privyWallet (this (Sequential.run_all ops w))
     = PrivacyCashV2.privyWallet (this w)
  /\ PrivacyCashV2.isOperationRunning (this (Sequential.run_all ops w))
     = match ops with
       | [] => PrivacyCashV2.isOperationRunning (this w)
       | _ => false
       end.
Proof.
  rewrite run_all_this. simpl. repeat split.
  destruct ops; reflexivity.
Qed.

Section FailureFacts.
Context `{Imp : Sdk.Imports}.
Import PrivacyCashV2 EventLoop.

Lemma wasm_failure (op : Op) (w : World Client) e o :
  mutating op = true ->
  Sdk.WasmFactory_getInstance (outer (snd (enter op w))) = (Throw e, o) ->
  method op w
  = (Throw e,
     {| this := {| connection := connection (this w);
                   publicKey := publicKey (this w);
                   encryptionService := encryptionService (this w);
                   privyWallet := privyWallet (this w);
                   isRunning := Some false |};
        outer := o;
        calls := calls w |}).
Proof.
  intros Hm Hw. rewrite method_enter_rest.
  destruct op; try discriminate Hm; simpl in Hw |- *;
    expose_goal; rewrite Hw; reflexivity.
Qed.
End FailureFacts.

(** X2: when [WasmFactory.getInstance()] rejects, a deposit or a
    withdrawal rejects with the same error before any imported deposit or
    withdraw function is called; the state outside the client is what the
    hasher left, and the flag is false again. *)
Theorem wasm_failure_makes_no_call `{Imp : Sdk.Imports}
    (op : EventLoop.Op) (w : World PrivacyCashV2.Client) e o :
  EventLoop.mutating op = true ->
  Sdk.WasmFactory_getInstance (outer (snd (EventLoop.enter op w))) = (Throw e, o) ->
  fst (EventLoop.method op w) = Throw e
  /\ calls (snd (EventLoop.method op w)) = calls w
  /\ outer (snd (EventLoop.method op w)) = o
  /\ PrivacyCashV2.isOperationRunning (this (snd (EventLoop.method op w))) = false.
Proof.
  intros Hm Hw. rewrite (wasm_failure op w e o Hm Hw). repeat split.
Qed.

Section RecipientFacts.
Context `{Imp : Sdk.Imports}.
Import PrivacyCashV2.

Lemma depositV2_bad_recipient (a : DepositV2Args) (w : World Client) e wasm o :
  feeRecipientPubkey (feeRecipient a) = Throw e ->
  Sdk.WasmFactory_getInstance (outer (snd (depositV2_enter w))) = (Return wasm, o) ->
  fst (depositV2 a w) = Throw e
  /\ calls (snd (depositV2 a w)) = calls w
  /\ outer (snd (depositV2 a w)) = o
  /\ isOperationRunning (this (snd (depositV2 a w))) = false.
Proof.
  intros Hr Hw. simpl in Hw.
  unfold depositV2, depositV2_enter. expose_goal. rewrite Hw. simpl.
  rewrite Hr. repeat split.
Qed.

Lemma depositSPLV2_bad_recipient (a : DepositSPLV2Args) (w : World Client) e wasm o :
  feeRecipientPubkey (splv2_feeRecipient a) = Throw e ->
  Sdk.WasmFactory_getInstance (outer (snd (depositSPLV2_enter w))) = (Return wasm, o) ->
  fst (depositSPLV2 a w) = Throw e
  /\ calls (snd (depositSPLV2 a w)) = calls w
  /\ outer (snd (depositSPLV2 a w)) = o
  /\ isOperationRunning (this (snd (depositSPLV2 a w))) = false.
Proof.
  intros Hr Hw. simpl in Hw.
  unfold depositSPLV2, depositSPLV2_enter. expose_goal. rewrite Hw. simpl.
  rewrite Hr. repeat split.
Qed.

Lemma withdraw_bad_recipient (a : WithdrawArgs) (w : World Client) e wasm o :
  recipient_of (recipientAddress a) (publicKey (this w)) = Throw e ->
  Sdk.WasmFactory_getInstance (outer (snd (withdraw_enter w))) = (Return wasm, o) ->
  fst (withdraw a w) = Throw e
  /\ calls (snd (withdraw a w)) = calls w
  /\ outer (snd (withdraw a w)) = o
  /\ isOperationRunning (this (snd (withdraw a w))) = false.
Proof.
  intros Hr Hw. simpl in Hw.
  unfold withdraw, withdraw_enter. expose_goal. rewrite Hw. simpl.
  rewrite Hr. repeat split.
Qed.

Lemma withdrawSPL_bad_recipient (a : WithdrawSPLArgs) (w : World Client) e wasm o :
  recipient_of (w_recipientAddress a) (publicKey (this w)) = Throw e ->
  Sdk.WasmFactory_getInstance (outer (snd (withdrawSPL_enter w))) = (Return wasm, o) ->
  fst (withdrawSPL a w) = Throw e
  /\ calls (snd (withdrawSPL a w)) = calls w
  /\ outer (snd (withdrawSPL a w)) = o
  /\ isOperationRunning (this (snd (withdrawSPL a w))) = false.
Proof.
  intros Hr Hw. simpl in Hw.
  unfold withdrawSPL, withdrawSPL_enter. expose_goal. rewrite Hw. simpl.
  rewrite Hr. repeat split.
Qed.

(** A non-empty address that does not decode makes the choice of the
    recipient throw. *)
Lemma recipient_of_bad (text : string) (own : PublicKey) e :
  text <> ""%string -> PublicKey_new text = Throw e ->
  recipient_of (Some text) own = Throw e.
Proof.
  intros N D. unfold recipient_of. destruct text; [congruence |]. exact D.
Qed.
End RecipientFacts.

(** X3: a fee recipient given as a string that [new PublicKey] refuses
    makes [depositV2] and [depositSPLV2] reject with that error, once the
    hasher is loaded, before the imported deposit function is called:
    nothing is deposited and no fee is transferred. *)
Theorem bad_fee_recipient_makes_no_deposit `{Imp : Sdk.Imports}
    (text : string) (e : JsError) :
  PublicKey_new text = Throw e ->
  (forall total fee referrer (w : World PrivacyCashV2.Client) wasm o,
      Sdk.WasmFactory_getInstance (outer (snd (PrivacyCashV2.depositV2_enter w)))
      = (Return wasm, o) ->
      let run := PrivacyCashV2.depositV2
                   {| PrivacyCashV2.totalLamports := total;
                      PrivacyCashV2.feeLamports := fee;
                      PrivacyCashV2.feeRecipient := inl text;
                      PrivacyCashV2.v2_referrer := referrer |} w in
      fst run = Throw e /\ calls (snd run) = calls w /\ outer (snd run) = o)
  /\ (forall total fee mint referrer (w : World PrivacyCashV2.Client) wasm o,
      Sdk.WasmFactory_getInstance (outer (snd (PrivacyCashV2.depositSPLV2_enter w)))
      = (Return wasm, o) ->
      let run := PrivacyCashV2.depositSPLV2
                   {| PrivacyCashV2.totalBaseUnits := total;
                      PrivacyCashV2.feeBaseUnits := fee;
                      PrivacyCashV2.splv2_feeRecipient := inl text;
                      PrivacyCashV2.splv2_mintAddress := mint;
                      PrivacyCashV2.splv2_referrer := referrer |} w in
      fst run = Throw e /\ calls (snd run) = calls w /\ outer (snd run) = o).
Proof.
  intros D. split.
  - intros total fee referrer w wasm o Hw run.
    destruct (depositV2_bad_recipient
                {| PrivacyCashV2.totalLamports := total;
                   PrivacyCashV2.feeLamports := fee;
                   PrivacyCashV2.feeRecipient := inl text;
                   PrivacyCashV2.v2_referrer := referrer |} w e wasm o D Hw)
      as (A & B & C & _).
    subst run. auto.
  - intros total fee mint referrer w wasm o Hw run.
    destruct (depositSPLV2_bad_recipient
                {| PrivacyCashV2.totalBaseUnits := total;
                   PrivacyCashV2.feeBaseUnits := fee;
                   PrivacyCashV2.splv2_feeRecipient := inl text;
                   PrivacyCashV2.splv2_mintAddress := mint;
                   PrivacyCashV2.splv2_referrer := referrer |} w e wasm o D Hw)
      as (A & B & C & _).
    subst run. auto.
Qed.

(** X4: a recipient address that is not empty and that [new PublicKey]
    refuses makes [withdraw] and [withdrawSPL] reject with that error,
    once the hasher is loaded, before the imported withdraw function is
    called: nothing is withdrawn. *)
Theorem bad_recipient_makes_no_withdrawal `{Imp : Sdk.Imports}
    (text : string) (e : JsError) :
  text <> ""%string ->
  PublicKey_new text = Throw e ->
  (forall amount (w : World PrivacyCashV2.Client) wasm o,
      Sdk.WasmFactory_getInstance (outer (snd (PrivacyCashV2.withdraw_enter w)))
      = (Return wasm, o) ->
      let run := PrivacyCashV2.withdraw
                   {| PrivacyCashV2.w_lamports := amount;
                      PrivacyCashV2.recipientAddress := Some text |} w in
      fst run = Throw e /\ calls (snd run) = calls w /\ outer (snd run) = o)
  /\ (forall amount mint (w : World PrivacyCashV2.Client) wasm o,
      Sdk.WasmFactory_getInstance (outer (snd (PrivacyCashV2.withdrawSPL_enter w)))
      = (Return wasm, o) ->
      let run := PrivacyCashV2.withdrawSPL
                   {| PrivacyCashV2.w_baseUnits := amount;
                      PrivacyCashV2.w_mintAddress := mint;
                      PrivacyCashV2.w_recipientAddress := Some text |} w in
      fst run = Throw e /\ calls (snd run) = calls w /\ outer (snd run) = o).
Proof.
  intros N D. split.
  - intros amount w wasm o Hw run.
    destruct (withdraw_bad_recipient
                {| PrivacyCashV2.w_lamports := amount;
                   PrivacyCashV2.recipientAddress := Some text |} w e wasm o
                (recipient_of_bad text _ e N D) Hw) as (A & B & C & _).
    subst run. auto.
  - intros amount mint w wasm o Hw run.
    destruct (withdrawSPL_bad_recipient
                {| PrivacyCashV2.w_baseUnits := amount;
                   PrivacyCashV2.w_mintAddress := mint;
                   PrivacyCashV2.w_recipientAddress := Some text |} w e wasm o
                (recipient_of_bad text _ e N D) Hw) as (A & B & C & _).
    subst run. auto.
Qed.

(** X5: the keypair client has no [finally]: after [deposit], [withdraw]
    or [getPrivateBalance] is fulfilled [isRuning] is false, and after it
    is rejected (the hasher, the recipient address or the imported
    function threw) [isRuning] is left true. *)
Theorem keypair_client_flag_sticks `{Imp : Sdk.Imports}
    (w : World PrivacyCash.Client) (lamports : Z) (a : PrivacyCash.WithdrawArgs) :
  (match PrivacyCash.deposit lamports w with
   | (Return _, w') => PrivacyCash.isRuning (this w') = false
   | (Throw _, w') => PrivacyCash.isRuning (this w') = true
   end)
  /\ (match PrivacyCash.withdraw a w with
      | (Return _, w') => PrivacyCash.isRuning (this w') = false
      | (Throw _, w') => PrivacyCash.isRuning (this w') = true
      end)
  /\ (match PrivacyCash.getPrivateBalance w with
      | (Return _, w') => PrivacyCash.isRuning (this w') = false
      | (Throw _, w') => PrivacyCash.isRuning (this w') = true
      end).
Proof.
  repeat split; expose_goal; await_all; reflexivity.
Qed.

(** X6: the flag does not count the operations in flight: when one of
    two or more pending operations settles, [isOperationRunning()]
    returns false although the others are still pending. *)
Theorem flag_false_while_others_pending `{Imp : Sdk.Imports}
    (l : EventLoop.Loop) (i : nat) r l' :
  EventLoop.settle i l = Some (r, l') ->
  (2 <= List.length (EventLoop.pending l))%nat ->
  PrivacyCashV2.isOperationRunning (this (EventLoop.world l')) = false
  /\ List.length (EventLoop.pending l') = (List.length (EventLoop.pending l) - 1)%nat
  /\ EventLoop.pending l' <> [].
Proof.
  intros S L. unfold EventLoop.settle in S.
  destruct (EventLoop.pending l !! i) as [op |] eqn:P; [| discriminate S].
  pose proof (rest_resets_flag op (EventLoop.world l)) as R.
  destruct (EventLoop.rest op (EventLoop.world l)) as [r0 w0].
  inversion S; subst; clear S. simpl in *.
  assert (Hl : List.length (delete i (EventLoop.pending l))
               = (List.length (EventLoop.pending l) - 1)%nat).
  { apply length_delete. eauto. }
  split; [unfold PrivacyCashV2.isOperationRunning; rewrite R; reflexivity |].
  split; [exact Hl |].
  intros E. rewrite E in Hl. simpl in Hl. lia.
Qed.

Section CacheComposition.
Context `{Imp : Sdk.Imports}.
Import PrivacyCashV2.

Lemma clearCacheSPL_world (mint : option PublicKey) (w : World Client) :
  snd (clearCacheSPL mint w)
  = match Sdk.getAssociatedTokenAddress (or_USDC_MINT mint) (publicKey (this w)) with
    | Return ata =>
        {| this := this w;
           outer :=
             {| storage :=
                  delete (LSK_ENCRYPTED_OUTPUTS +:+ Sdk.localstorageKeySPL ata)%string
                    (delete (LSK_FETCH_OFFSET +:+ Sdk.localstorageKeySPL ata)%string
                       (storage (outer w)));
                ledger := ledger (outer w);
                output := output (outer w) |};
           calls := calls w |}
    | Throw _ => w
    end.
Proof.
  rewrite clearCacheSPL_run.
  destruct (Sdk.getAssociatedTokenAddress _ _); reflexivity.
Qed.

Lemma delete_two_idemp (m : gmap string string) (k1 k2 : string) :
  delete k2 (delete k1 (delete k2 (delete k1 m))) = delete k2 (delete k1 m).
Proof.
  apply map_eq. intros k. rewrite !lookup_delete_two.
  destruct (decide (k = k1 ∨ k = k2)); reflexivity.
Qed.

Lemma delete_two_commute (m : gmap string string) (k1 k2 a1 a2 : string) :
  delete a2 (delete a1 (delete k2 (delete k1 m)))
  = delete k2 (delete k1 (delete a2 (delete a1 m))).
Proof.
  apply map_eq. intros k. rewrite !lookup_delete_two.
  destruct (decide (k = a1 ∨ k = a2)), (decide (k = k1 ∨ k = k2)); reflexivity.
Qed.
End CacheComposition.

(** X7: clearing the cache twice is clearing it once, for [clearCache]
    and for [clearCacheSPL] of a mint; and clearing the native cache and
    the cache of a mint leaves the same state in either order. *)
Theorem clearCache_idempotent_and_commutes `{Imp : Sdk.Imports}
    (w : World PrivacyCashV2.Client) (mint : option PublicKey) :
  snd (PrivacyCashV2.clearCache (snd (PrivacyCashV2.clearCache w)))
  = snd (PrivacyCashV2.clearCache w)
  /\ snd (PrivacyCashV2.clearCacheSPL mint (snd (PrivacyCashV2.clearCacheSPL mint w)))
     = snd (PrivacyCashV2.clearCacheSPL mint w)
  /\ snd (PrivacyCashV2.clearCacheSPL mint (snd (PrivacyCashV2.clearCache w)))
     = snd (PrivacyCashV2.clearCache (snd (PrivacyCashV2.clearCacheSPL mint w))).
Proof.
  split; [| split].
  - rewrite !clearCache_run. simpl. rewrite delete_two_idemp. reflexivity.
  - rewrite (clearCacheSPL_world mint w).
    destruct (Sdk.getAssociatedTokenAddress (PrivacyCashV2.or_USDC_MINT mint)
                (PrivacyCashV2.publicKey (this w))) as [ata | e] eqn:A.
    + rewrite clearCacheSPL_world. simpl. rewrite A.
      rewrite delete_two_idemp. reflexivity.
    + rewrite clearCacheSPL_world, A. reflexivity.
  - rewrite (clearCacheSPL_world mint w), !clearCache_run. simpl.
    rewrite clearCacheSPL_world. simpl.
    destruct (Sdk.getAssociatedTokenAddress (PrivacyCashV2.or_USDC_MINT mint)
                (PrivacyCashV2.publicKey (this w))) as [ata | e]; simpl.
    + rewrite delete_two_commute. reflexivity.
    + reflexivity.
Qed.

(** X8: [clearCache] of the keypair client removes the same two entries
    as that of the wallet client: the fetch-offset entry and the
    encrypted-outputs entry of the owner's public key; every other entry,
    the client, the ledger and the log are left as they were. *)
Theorem keypair_clearCache_removes_two_entries `{Imp : Sdk.Imports}
    (w : World PrivacyCash.Client) :
  let own := PrivacyCash.publicKey (this w) in
  let k1 := (LSK_FETCH_OFFSET +:+ Sdk.localstorageKey own)%string in
  let k2 := (LSK_ENCRYPTED_OUTPUTS +:+ Sdk.localstorageKey own)%string in
  let w' := snd (PrivacyCash.clearCache w) in
  fst (PrivacyCash.clearCache w) = Return tt
  /\ (forall k : string,
        storage (outer w') !! k
        = if decide (k = k1 \/ k = k2) then None else storage (outer w) !! k)
  /\ this w' = this w
  /\ ledger (outer w') = ledger (outer w)
  /\ output (outer w') = output (outer w)
  /\ calls w' = calls w.
Proof.
  cbv zeta. split; [reflexivity |].
  split; [intros k; apply lookup_delete_two |]. repeat split.
Qed.

Section DepositFacts.
Context `{Imp : Sdk.Imports}.

Lemma deposit_fulfilled (a : PrivacyCashV2.DepositArgs)
    (w : World PrivacyCashV2.Client) r w' :
  PrivacyCashV2.deposit a w = (Return r, w') ->
  exists p o o',
    Sdk.deposit p o = (Return r, o')
    /\ calls w' = calls w ++ [Sdk.CallDeposit p]
    /\ DepositParams.amount_in_lamports p = PrivacyCashV2.lamports a
    /\ DepositParams.referrer p = PrivacyCashV2.referrer a
    /\ DepositParams.publicKey p = PrivacyCashV2.publicKey (this w)
    /\ DepositParams.transactionSigner p
       = PrivySigner (PrivacyCashV2.privyWallet (this w)).
Proof.
  intros E. expose E. await E. await E.
  inversion E; subst; clear E.
  do 3 eexists. split; [exact Q0 |]. simpl. repeat split.
Qed.

Lemma depositSPL_fulfilled (a : PrivacyCashV2.DepositSPLArgs)
    (w : World PrivacyCashV2.Client) r w' :
  PrivacyCashV2.depositSPL a w = (Return r, w') ->
  exists p o o',
    Sdk.depositSPL p o = (Return r, o')
    /\ calls w' = calls w ++ [Sdk.CallDepositSPL p]
    /\ DepositSPLParams.base_units p = PrivacyCashV2.baseUnits a
    /\ DepositSPLParams.mintAddress p
       = PrivacyCashV2.or_USDC_MINT (PrivacyCashV2.mintAddress a)
    /\ DepositSPLParams.referrer p = PrivacyCashV2.spl_referrer a
    /\ DepositSPLParams.publicKey p = PrivacyCashV2.publicKey (this w)
    /\ DepositSPLParams.transactionSigner p
       = PrivySigner (PrivacyCashV2.privyWallet (this w)).
Proof.
  intros E. expose E. await E. await E.
  inversion E; subst; clear E.
  do 3 eexists. split; [exact Q0 |]. simpl. repeat split.
Qed.

Lemma deposit_v1_fulfilled (lamports : Z) (w : World PrivacyCash.Client) r w' :
  PrivacyCash.deposit lamports w = (Return r, w') ->
  exists p o o',
    Sdk.deposit p o = (Return r, o')
    /\ calls w' = calls w ++ [Sdk.CallDeposit p]
    /\ DepositParams.amount_in_lamports p = lamports
    /\ DepositParams.referrer p = None
    /\ DepositParams.publicKey p = PrivacyCash.publicKey (this w)
    /\ DepositParams.transactionSigner p
       = KeypairSigner (PrivacyCash.keypair (this w)).
Proof.
  intros E. unfold PrivacyCash.deposit in E. expose E. await E. await E.
  inversion E; subst; clear E.
  do 3 eexists. split; [exact Q0 |]. simpl. repeat split.
Qed.
End DepositFacts.

(** X9: a fulfilled [deposit] or [depositSPL] is exactly one call of the
    imported deposit function, with the caller's amount and referrer, the
    client's public key, the mint (USDC when none is given) and the
    client's own signer (the Privy wallet for the wallet client, the
    keypair and no referrer for the keypair client); its result is handed
    back as it is. *)
Theorem deposit_is_one_signed_call `{Imp : Sdk.Imports} :
  (forall (a : PrivacyCashV2.DepositArgs) (w : World PrivacyCashV2.Client) r w',
      PrivacyCashV2.deposit a w = (Return r, w') ->
      exists p o o',
        Sdk.deposit p o = (Return r, o')
        /\ calls w' = calls w ++ [Sdk.CallDeposit p]
        /\ DepositParams.amount_in_lamports p = PrivacyCashV2.lamports a
        /\ DepositParams.referrer p = PrivacyCashV2.referrer a
        /\ DepositParams.publicKey p = PrivacyCashV2.publicKey (this w)
        /\ DepositParams.transactionSigner p
           = PrivySigner (PrivacyCashV2.privyWallet (this w)))
  /\ (forall (a : PrivacyCashV2.DepositSPLArgs) (w : World PrivacyCashV2.Client) r w',
      PrivacyCashV2.depositSPL a w = (Return r, w') ->
      exists p o o',
        Sdk.depositSPL p o = (Return r, o')
        /\ calls w' = calls w ++ [Sdk.CallDepositSPL p]
        /\ DepositSPLParams.base_units p = PrivacyCashV2.baseUnits a
        /\ DepositSPLParams.mintAddress p
           = match PrivacyCashV2.mintAddress a with
             | Some mint => mint
             | None => USDC_MINT
             end
        /\ DepositSPLParams.referrer p = PrivacyCashV2.spl_referrer a
        /\ DepositSPLParams.publicKey p = PrivacyCashV2.publicKey (this w)
        /\ DepositSPLParams.transactionSigner p
           = PrivySigner (PrivacyCashV2.privyWallet (this w)))
  /\ (forall (lamports : Z) (w : World PrivacyCash.Client) r w',
      PrivacyCash.deposit lamports w = (Return r, w') ->
      exists p o o',
        Sdk.deposit p o = (Return r, o')
        /\ calls w' = calls w ++ [Sdk.CallDeposit p]
        /\ DepositParams.amount_in_lamports p = lamports
        /\ DepositParams.referrer p = None
        /\ DepositParams.publicKey p = PrivacyCash.publicKey (this w)
        /\ DepositParams.transactionSigner p
           = KeypairSigner (PrivacyCash.keypair (this w))).
Proof.
  split; [| split].
  - intros a w r w' E. exact (deposit_fulfilled a w r w' E).
  - intros a w r w' E. exact (depositSPL_fulfilled a w r w' E).
  - intros l w r w' E. exact (deposit_v1_fulfilled l w r w' E).
Qed.

(** What a wallet that was constructed tells: the key was decoded, the
    package made a client for the application and took the authorization
    key. *)
Lemma PrivyWallet_new_returns (pkg : PrivyWallet.Package)
    (config : PrivyWallet.PrivyConfig) (id : string)
    (given : string + PublicKey) (wallet : PrivyWallet.t) :
  PrivyWallet.new pkg config id given = Return wallet ->
  match given with
  | inl text => PublicKey_new text = Return (PrivyWallet.publicKey wallet)
  | inr key => PrivyWallet.publicKey wallet = key
  end
  /\ PrivyWallet.PrivyClient_new pkg (PrivyWallet.appId config)
       (PrivyWallet.appSecret config) = Return tt
  /\ PrivyWallet.walletApi_updateAuthorizationKey pkg
       (PrivyWallet.authorizationPrivateKey config) = Return tt
  /\ PrivyWallet.privyClient wallet = config
  /\ PrivyWallet.walletId wallet = id.
Proof.
  unfold PrivyWallet.new. intros E.
  destruct (PrivyWallet.PrivyClient_new pkg _ _) as [[] | e] eqn:N;
    [| destruct given as [text | key]; [destruct (PublicKey_new text) |];
       discriminate E].
  destruct (PrivyWallet.walletApi_updateAuthorizationKey pkg _) as [[] | e] eqn:U;
    [| destruct given as [text | key]; [destruct (PublicKey_new text) |];
       discriminate E].
  destruct given as [text | key].
  - destruct (PublicKey_new text) as [k | e] eqn:D; [| discriminate E].
    inversion E; subst; clear E. simpl. repeat split.
  - inversion E; subst; clear E. simpl. repeat split.
Qed.

(** X10: [PrivacyCashV2.create] gives a client only when the Privy
    package made a client for the application id and secret and took the
    authorization key; the client is then not running, its public key is
    the wallet's and is the key of the configuration (decoded when it is
    given as text), its wallet has the configured wallet id and Privy
    configuration, and its connection is the one opened on the configured
    URL with commitment confirmed.  A key text that [new PublicKey]
    refuses makes [create] reject with that error, whatever the package
    would do; with a key that is accepted, a refusal of the package to
    make the client, or to take the authorization key, makes [create]
    reject with the package's error; in each case nothing outside is
    touched.  The text of a key and the key give the same outcome. *)
Theorem create_gives_idle_client `{Imp : Sdk.Imports} (pkg : PrivyWallet.Package) :
  (forall (config : PrivacyCashV2.PrivacyCashV2Config) (o : Outer) c o',
      PrivacyCashV2.create pkg config o = (Return c, o') ->
      PrivacyCashV2.isOperationRunning c = false
      /\ PrivacyCashV2.publicKey c = PrivyWallet.publicKey (PrivacyCashV2.privyWallet c)
      /\ match PrivacyCashV2.cfg_publicKey config with
         | inl text => PublicKey_new text = Return (PrivacyCashV2.publicKey c)
         | inr key => PrivacyCashV2.publicKey c = key
         end
      /\ PrivyWallet.walletId (PrivacyCashV2.privyWallet c) = PrivacyCashV2.walletId config
      /\ Sdk.Connection_new (PrivacyCashV2.RPC_url config) "confirmed"
         = Return (PrivacyCashV2.connection c)
      /\ Sdk.deriveEncryptionKeyFromPrivyWallet (PrivacyCashV2.privyWallet c) o
         = (Return (PrivacyCashV2.encryptionService c), o')
      /\ PrivyWallet.privyClient (PrivacyCashV2.privyWallet c)
         = PrivacyCashV2.privy config
      /\ PrivyWallet.PrivyClient_new pkg
           (PrivyWallet.appId (PrivacyCashV2.privy config))
           (PrivyWallet.appSecret (PrivacyCashV2.privy config)) = Return tt
      /\ PrivyWallet.walletApi_updateAuthorizationKey pkg
           (PrivyWallet.authorizationPrivateKey (PrivacyCashV2.privy config))
         = Return tt)
  /\ (forall url id text cfg dbg (o : Outer) e,
      PublicKey_new text = Throw e ->
      PrivacyCashV2.create pkg
        {| PrivacyCashV2.RPC_url := url;
           PrivacyCashV2.walletId := id;
           PrivacyCashV2.cfg_publicKey := inl text;
           PrivacyCashV2.privy := cfg;
           PrivacyCashV2.enableDebug := dbg |} o
      = (Throw e, o))
  /\ (forall url id key cfg dbg (o : Outer) e,
      PrivyWallet.PrivyClient_new pkg (PrivyWallet.appId cfg)
        (PrivyWallet.appSecret cfg) = Throw e ->
      PrivacyCashV2.create pkg
        {| PrivacyCashV2.RPC_url := url;
           PrivacyCashV2.walletId := id;
           PrivacyCashV2.cfg_publicKey := inr key;
           PrivacyCashV2.privy := cfg;
           PrivacyCashV2.enableDebug := dbg |} o
      = (Throw e, o))
  /\ (forall url id key cfg dbg (o : Outer) e,
      PrivyWallet.PrivyClient_new pkg (PrivyWallet.appId cfg)
        (PrivyWallet.appSecret cfg) = Return tt ->
      PrivyWallet.walletApi_updateAuthorizationKey pkg
        (PrivyWallet.authorizationPrivateKey cfg) = Throw e ->
      PrivacyCashV2.create pkg
        {| PrivacyCashV2.RPC_url := url;
           PrivacyCashV2.walletId := id;
           PrivacyCashV2.cfg_publicKey := inr key;
           PrivacyCashV2.privy := cfg;
           PrivacyCashV2.enableDebug := dbg |} o
      = (Throw e, o))
  /\ (forall url id text key cfg dbg (o : Outer),
      PublicKey_new text = Return key ->
      PrivacyCashV2.create pkg
        {| PrivacyCashV2.RPC_url := url;
           PrivacyCashV2.walletId := id;
           PrivacyCashV2.cfg_publicKey := inl text;
           PrivacyCashV2.privy := cfg;
           PrivacyCashV2.enableDebug := dbg |} o
      = PrivacyCashV2.create pkg
          {| PrivacyCashV2.RPC_url := url;
             PrivacyCashV2.walletId := id;
             PrivacyCashV2.cfg_publicKey := inr key;
             PrivacyCashV2.privy := cfg;
             PrivacyCashV2.enableDebug := dbg |} o).
Proof.
  split; [| split; [| split; [| split]]].
  - intros config o c o' E.
    unfold PrivacyCashV2.create, bind, lift, ret in E.
    destruct (PrivyWallet.new pkg _ _ _) as [wallet | e] eqn:W;
      [| discriminate E].
    destruct (PrivyWallet_new_returns _ _ _ _ _ W) as (K & N & U & P & I).
    destruct (Sdk.Connection_new _ _) as [conn | e] eqn:Q; [| discriminate E].
    destruct (Sdk.deriveEncryptionKeyFromPrivyWallet _ o) as [[enc | e] o1] eqn:S;
      [| discriminate E].
    inversion E; subst; clear E. simpl.
    repeat (split; [first [reflexivity | assumption] |]). exact U.
  - intros url id text cfg dbg o e D.
    unfold PrivacyCashV2.create, PrivyWallet.new, bind, lift. simpl. rewrite D.
    reflexivity.
  - intros url id key cfg dbg o e N.
    unfold PrivacyCashV2.create, PrivyWallet.new, bind, lift. simpl. rewrite N.
    reflexivity.
  - intros url id key cfg dbg o e N U.
    unfold PrivacyCashV2.create, PrivyWallet.new, bind, lift. simpl.
    rewrite N, U. reflexivity.
  - intros url id text key cfg dbg o D.
    unfold PrivacyCashV2.create, PrivyWallet.new, bind, lift. simpl. rewrite D.
    reflexivity.
Qed.

(** X11: the owner of a keypair client may be given as base-58 text, as
    a byte array or as an array of numbers: a text and the bytes it
    decodes to, and two number arrays equal modulo 256 element by element,
    are the same owner, for [getSolanaKeypair] and for the constructor. *)
Theorem owner_encodings_agree `{Imp : Sdk.Imports} :
  (forall text bytes url dbg,
      Bs58.decode text = Return bytes ->
      PrivacyCash.getSolanaKeypair (PrivacyCash.OfString text)
      = PrivacyCash.getSolanaKeypair (PrivacyCash.OfUint8Array bytes)
      /\ PrivacyCash.constructor
           {| PrivacyCash.RPC_url := url;
              PrivacyCash.owner := PrivacyCash.OfString text;
              PrivacyCash.enableDebug := dbg |}
         = PrivacyCash.constructor
             {| PrivacyCash.RPC_url := url;
                PrivacyCash.owner := PrivacyCash.OfUint8Array bytes;
                PrivacyCash.enableDebug := dbg |})
  /\ (forall numbers numbers' url dbg,
      map ToUint8 numbers = map ToUint8 numbers' ->
      PrivacyCash.getSolanaKeypair (PrivacyCash.OfNumbers numbers)
      = PrivacyCash.getSolanaKeypair (PrivacyCash.OfNumbers numbers')
      /\ PrivacyCash.getSolanaKeypair (PrivacyCash.OfNumbers numbers)
         = PrivacyCash.getSolanaKeypair (PrivacyCash.OfUint8Array (map ToUint8 numbers))
      /\ PrivacyCash.constructor
           {| PrivacyCash.RPC_url := url;
              PrivacyCash.owner := PrivacyCash.OfNumbers numbers;
              PrivacyCash.enableDebug := dbg |}
         = PrivacyCash.constructor
             {| PrivacyCash.RPC_url := url;
                PrivacyCash.owner := PrivacyCash.OfNumbers numbers';
                PrivacyCash.enableDebug := dbg |}).
Proof.
  split.
  - intros text bytes url dbg D.
    assert (G : PrivacyCash.getSolanaKeypair (PrivacyCash.OfString text)
                = PrivacyCash.getSolanaKeypair (PrivacyCash.OfUint8Array bytes)).
    { rewrite (getSolanaKeypair_bytes (PrivacyCash.OfString text) bytes D).
      rewrite (getSolanaKeypair_bytes (PrivacyCash.OfUint8Array bytes) bytes eq_refl).
      reflexivity. }
    split; [exact G |]. unfold PrivacyCash.constructor. simpl. rewrite G. reflexivity.
  - intros n n' url dbg E.
    assert (G : PrivacyCash.getSolanaKeypair (PrivacyCash.OfNumbers n)
                = PrivacyCash.getSolanaKeypair (PrivacyCash.OfNumbers n')).
    { rewrite (getSolanaKeypair_bytes (PrivacyCash.OfNumbers n) _ eq_refl).
      rewrite (getSolanaKeypair_bytes (PrivacyCash.OfNumbers n') _ eq_refl).
      rewrite E. reflexivity. }
    split; [exact G |]. split.
    + rewrite (getSolanaKeypair_bytes (PrivacyCash.OfNumbers n) _ eq_refl).
      rewrite (getSolanaKeypair_bytes (PrivacyCash.OfUint8Array _) _ eq_refl).
      reflexivity.
    + unfold PrivacyCash.constructor. simpl. rewrite G. reflexivity.
Qed.

Section ClientsAgree.
Context `{Imp : Sdk.Imports}.

(** The two clients hold the same connection, key and encryption
    service and run in the same surroundings. *)
Lemma withdraw_agrees (w1 : World PrivacyCash.Client)
    (w2 : World PrivacyCashV2.Client) (amount : Z) (address : option string) :
  PrivacyCash.connection (this w1) = PrivacyCashV2.connection (this w2) ->
  PrivacyCash.publicKey (this w1) = PrivacyCashV2.publicKey (this w2) ->
  PrivacyCash.encryptionService (this w1) = PrivacyCashV2.encryptionService (this w2) ->
  outer w1 = outer w2 ->
  calls w1 = calls w2 ->
  let r1 := PrivacyCash.withdraw
              {| PrivacyCash.lamports := amount;
                 PrivacyCash.recipientAddress := address |} w1 in
  let r2 := PrivacyCashV2.withdraw
              {| PrivacyCashV2.w_lamports := amount;
                 PrivacyCashV2.recipientAddress := address |} w2 in
  fst r1 = fst r2
  /\ storage (outer (snd r1)) = storage (outer (snd r2))
  /\ ledger (outer (snd r1)) = ledger (outer (snd r2))
  /\ calls (snd r1) = calls (snd r2).
Proof.
  destruct w1 as [[c1 k1 s1 kp1 f1] o1 l1], w2 as [[c2 k2 s2 pw2 f2] o2 l2].
  simpl. intros -> -> -> -> ->. 
  unfold PrivacyCashV2.withdraw, PrivacyCashV2.withdraw_enter. expose_goal.
  unfold PrivacyCash.recipient_of, PrivacyCashV2.recipient_of.
  await_all; repeat split.
Qed.

Lemma getPrivateBalance_agrees (w1 : World PrivacyCash.Client)
    (w2 : World PrivacyCashV2.Client) :
  PrivacyCash.connection (this w1) = PrivacyCashV2.connection (this w2) ->
  PrivacyCash.publicKey (this w1) = PrivacyCashV2.publicKey (this w2) ->
  PrivacyCash.encryptionService (this w1) = PrivacyCashV2.encryptionService (this w2) ->
  outer w1 = outer w2 ->
  calls w1 = calls w2 ->
  let r1 := PrivacyCash.getPrivateBalance w1 in
  let r2 := PrivacyCashV2.getPrivateBalance w2 in
  fst r1 = fst r2
  /\ storage (outer (snd r1)) = storage (outer (snd r2))
  /\ ledger (outer (snd r1)) = ledger (outer (snd r2))
  /\ calls (snd r1) = calls (snd r2).
Proof.
  destruct w1 as [[c1 k1 s1 kp1 f1] o1 l1], w2 as [[c2 k2 s2 pw2 f2] o2 l2].
  simpl. intros -> -> -> -> ->.
  unfold PrivacyCashV2.getPrivateBalance, PrivacyCashV2.getPrivateBalance_enter.
  expose_goal. await_all; repeat split.
Qed.
End ClientsAgree.

(** X15: for the same connection, key and encryption service, in the
    same surroundings, [withdraw] and [getPrivateBalance] of the keypair
    client and of the wallet client do the same: the same result or
    error, the same calls of the imported functions, the same cache and
    ledger afterwards. *)
Theorem keypair_and_wallet_clients_agree `{Imp : Sdk.Imports}
    (w1 : World PrivacyCash.Client) (w2 : World PrivacyCashV2.Client)
    (amount : Z) (address : option string) :
  PrivacyCash.connection (this w1) = PrivacyCashV2.connection (this w2) ->
  PrivacyCash.publicKey (this w1) = PrivacyCashV2.publicKey (this w2) ->
  PrivacyCash.encryptionService (this w1) = PrivacyCashV2.encryptionService (this w2) ->
  outer w1 = outer w2 ->
  calls w1 = calls w2 ->
  (let r1 := PrivacyCash.withdraw
               {| PrivacyCash.lamports := amount;
                  PrivacyCash.recipientAddress := address |} w1 in
   let r2 := PrivacyCashV2.withdraw
               {| PrivacyCashV2.w_lamports := amount;
                  PrivacyCashV2.recipientAddress := address |} w2 in
   fst r1 = fst r2
   /\ storage (outer (snd r1)) = storage (outer (snd r2))
   /\ ledger (outer (snd r1)) = ledger (outer (snd r2))
   /\ calls (snd r1) = calls (snd r2))
  /\ (let r1 := PrivacyCash.getPrivateBalance w1 in
      let r2 := PrivacyCashV2.getPrivateBalance w2 in
      fst r1 = fst r2
      /\ storage (outer (snd r1)) = storage (outer (snd r2))
      /\ ledger (outer (snd r1)) = ledger (outer (snd r2))
      /\ calls (snd r1) = calls (snd r2)).
Proof.
  intros Hc Hk Hs Ho Hl. split.
  - exact (withdraw_agrees w1 w2 amount address Hc Hk Hs Ho Hl).
  - exact (getPrivateBalance_agrees w1 w2 Hc Hk Hs Ho Hl).
Qed.

Section StatusFacts.
Import StatusRender.

Lemma frame_at_cycle (j : nat) :
  frame_at (Z.of_nat j mod 4) = nth (j mod 4) frames "undefined"%string.
Proof.
  unfold frame_at.
  assert (B : 0 <= Z.of_nat j mod 4 < 4) by (apply Z.mod_pos_bound; lia).
  destruct (Z.ltb_spec (Z.of_nat j mod 4) 0) as [L | L]; [lia |].
  f_equal. change 4 with (Z.of_nat 4). rewrite <- Nat2Z.inj_mod.
  apply Nat2Z.id.
Qed.

Lemma turns_from (reads : list (bool * string)) (r : Render) :
  i (turns reads r)
  = i r + Z.of_nat (List.length (List.filter fst reads))
  /\ stdout (turns reads r)
     = stdout r
       ++ imap (fun j st => stdWrite st (frame_at ((i r + Z.of_nat j) mod 4)))
            (map snd (List.filter fst reads)).
Proof.
  revert r. induction reads as [| [running st] reads IH]; intros r.
  - simpl. split; [lia | rewrite app_nil_r; reflexivity].
  - simpl. destruct running; simpl.
    + destruct (IH {| i := i r + 1;
                      stdout := stdout r ++ [stdWrite st (frame_at (i r mod 4))] |})
        as [I O].
      simpl in I, O. change (Z.of_nat 4) with 4. rewrite I, O. split; [lia |].
      rewrite <- app_assoc. simpl. f_equal. f_equal.
      * replace (i r + Z.of_nat 0) with (i r) by lia. reflexivity.
      * apply imap_ext. intros j x _. simpl.
        replace (i r + 1 + Z.of_nat j) with (i r + Z.of_nat (S j)) by lia.
        reflexivity.
    + apply IH.
Qed.

Lemma last_cons {A} (a d : A) (l : list A) : List.last (a :: l) d = List.last l a.
Proof.
  revert a d. induction l as [| b l IH]; intros a d; [reflexivity |].
  change (List.last (a :: b :: l) d) with (List.last (b :: l) d).
  rewrite (IH b d), (IH b a). reflexivity.
Qed.
End StatusFacts.

(** X12: the spinner writes one line for each turn of its loop in which
    an operation is running and none in the others; the lines carry the
    status read in that turn and the frames minus, backslash, bar, slash
    in this order, over and over (the index never leaves the array), and
    the counter is the number of lines written. *)
Theorem spinner_cycles_through_frames (reads : list (bool * string)) :
  let shown := map snd (List.filter fst reads) in
  StatusRender.stdout (StatusRender.turns reads StatusRender.start)
  = imap (fun j status =>
            StatusRender.stdWrite status
              (nth (j mod 4) StatusRender.frames "undefined"%string)) shown
  /\ StatusRender.i (StatusRender.turns reads StatusRender.start)
     = Z.of_nat (List.length shown)
  /\ Forall (fun line => exists status frame,
                 In frame StatusRender.frames
                 /\ line = StatusRender.stdWrite status frame)
       (StatusRender.stdout (StatusRender.turns reads StatusRender.start)).
Proof.
  cbv zeta. destruct (turns_from reads StatusRender.start) as [I O].
  change (StatusRender.i StatusRender.start) with 0 in I, O.
  change (StatusRender.stdout StatusRender.start) with (@nil string) in O.
  rewrite app_nil_l in O. rewrite Z.add_0_l in I.
  assert (E : StatusRender.stdout (StatusRender.turns reads StatusRender.start)
              = imap (fun j status =>
                        StatusRender.stdWrite status
                          (nth (j mod 4) StatusRender.frames "undefined"%string))
                  (map snd (List.filter fst reads))).
  { rewrite O. apply imap_ext. intros j x _. cbv beta.
    rewrite <- frame_at_cycle. rewrite Z.add_0_l. reflexivity. }
  split; [exact E |]. split; [rewrite I, length_map; lia |].
  rewrite E. apply Forall_forall. intros line Hin.
  apply elem_of_lookup_imap in Hin. destruct Hin as (j & st & -> & _).
  exists st, (nth (j mod 4) StatusRender.frames "undefined"%string).
  split; [| reflexivity].
  apply nth_In. change (List.length StatusRender.frames) with 4%nat.
  apply Nat.mod_upper_bound. lia.
Qed.

(** X13: with the logger the constructor installs, the status shown is
    the message of the last [info] entry logged (the status before when
    there is none), and the console is given one line, in order, for each
    [error] entry and nothing for any other level. *)
Theorem status_is_last_info (entries : list (string * string))
    (d : StatusRender.Display) :
  StatusRender.status (StatusRender.on_logs entries d)
  = List.last (map snd (List.filter (fun x => String.eqb (fst x) "info") entries))
      (StatusRender.status d)
  /\ StatusRender.console (StatusRender.on_logs entries d)
     = StatusRender.console d
       ++ map (fun x => ("error message:"%string, snd x))
            (List.filter (fun x => String.eqb (fst x) "error") entries).
Proof.
  revert d. induction entries as [| [level message] entries IH]; intros d.
  - simpl. rewrite app_nil_r. split; reflexivity.
  - unfold StatusRender.on_logs in *.
    change (fold_left (fun d0 x => StatusRender.on_log (fst x) (snd x) d0)
              ((level, message) :: entries) d)
      with (fold_left (fun d0 x => StatusRender.on_log (fst x) (snd x) d0)
              entries (StatusRender.on_log level message d)).
    destruct (IH (StatusRender.on_log level message d)) as [S C].
    rewrite S, C. clear S C IH.
    cbn [List.filter fst snd]. unfold StatusRender.on_log.
    destruct (String.eqb_spec level "info") as [-> | N1].
    + cbn [map snd StatusRender.status StatusRender.console].
      rewrite last_cons. split; reflexivity.
    + destruct (String.eqb_spec level "error") as [-> | N2].
      * cbn [map snd StatusRender.status StatusRender.console].
        rewrite <- app_assoc. split; reflexivity.
      * split; reflexivity.
Qed.

Section PromiseFacts.
Import PrivySigning.
Context {A : Type}.

Lemma rejections_elem (positions : list nat) (promises : list (completion A)) e :
  e ∈ rejections positions promises ->
  exists n, promises !! n = Some (Throw e).
Proof.
  unfold rejections. intros H. apply list_elem_of_omap in H.
  destruct H as (n & _ & H). exists n.
  destruct (promises !! n) as [[a | e'] |]; try discriminate H.
  inversion H; subst. reflexivity.
Qed.

Lemma rejections_none (positions : list nat) (promises : list (completion A)) :
  Forall (fun p => exists a, p = Return a) promises ->
  rejections positions promises = [].
Proof.
  intros F. apply elem_of_nil_inv. intros e H.
  apply rejections_elem in H. destruct H as (n & L).
  apply (proj1 (Forall_lookup _ _) F) in L. destruct L as [a L]. discriminate L.
Qed.

(** When no position of the array holds a rejection, every promise is
    fulfilled and the values are theirs, in order. *)
Lemma values_of_fulfilled (before promises : list (completion A)) :
  rejections (seq (List.length before) (List.length promises)) (before ++ promises) = [] ->
  Forall2 (fun p a => p = Return a) promises (values promises).
Proof.
  revert before. induction promises as [| p promises IH]; intros before H.
  - constructor.
  - simpl in H. unfold rejections in H. simpl in H.
    rewrite lookup_app_r in H by lia.
    replace (List.length before - List.length before)%nat with 0%nat in H by lia.
    simpl in H. destruct p as [a | e]; [| discriminate H].
    unfold values. simpl. constructor; [reflexivity |].
    apply (IH (before ++ [Return a])).
    rewrite length_app. simpl. rewrite <- app_assoc. simpl.
    replace (List.length before + 1)%nat with (S (List.length before)) by lia.
    exact H.
Qed.

Lemma Promise_all_fulfilled (settled : list nat) (promises : list (completion A)) out :
  Promise_all settled promises = Return out ->
  Forall2 (fun p a => p = Return a) promises out.
Proof.
  unfold Promise_all. intros H.
  destruct (rejections settled promises ++ _) as [| e l] eqn:R; [| discriminate H].
  inversion H; subst. apply app_eq_nil in R. destruct R as [_ R].
  apply (values_of_fulfilled [] promises). exact R.
Qed.

Lemma Promise_all_rejected (settled : list nat) (promises : list (completion A)) e :
  Promise_all settled promises = Throw e ->
  exists n, promises !! n = Some (Throw e).
Proof.
  unfold Promise_all. intros H.
  destruct (rejections settled promises ++ _) as [| e' l] eqn:R; [discriminate H |].
  inversion H; subst.
  assert (I : e ∈ rejections settled promises
                  ++ rejections (seq 0 (List.length promises)) promises)
    by (rewrite R; left).
  apply elem_of_app in I. destruct I as [I | I]; exact (rejections_elem _ _ _ I).
Qed.

Lemma Promise_all_of_fulfilled (settled : list nat) (promises : list (completion A)) :
  Forall (fun p => exists a, p = Return a) promises ->
  Promise_all settled promises = Return (values promises).
Proof.
  intros F. unfold Promise_all. rewrite !rejections_none by exact F. reflexivity.
Qed.
End PromiseFacts.

(** X14: [signAllTransactions] asks the wallet service to sign each
    transaction under the wallet's id.  When it is fulfilled, the signed
    transactions are as many as were given and the n-th is the signature
    of the n-th, whatever the order in which the service answered; when
    it is rejected, the error is that of one of the transactions given;
    it is fulfilled whenever every transaction can be signed. *)
Theorem signAllTransactions_keeps_order {Transaction : Type}
    (service : string -> Transaction ->
               completion (PrivySigning.SignTransactionResponse (Transaction := Transaction)))
    (settled : list nat) (w : PrivyWallet.t) (txs : list Transaction) :
  (forall out,
      PrivySigning.signAllTransactions service settled w txs = Return out ->
      Forall2 (fun tx signed =>
                 exists response,
                   service (PrivyWallet.walletId w) tx = Return response
                   /\ signed = PrivySigning.signedTransaction response)
        txs out)
  /\ (forall e,
      PrivySigning.signAllTransactions service settled w txs = Throw e ->
      exists tx, In tx txs /\ service (PrivyWallet.walletId w) tx = Throw e)
  /\ (Forall (fun tx => exists response,
                  service (PrivyWallet.walletId w) tx = Return response) txs ->
      exists out, PrivySigning.signAllTransactions service settled w txs = Return out).
Proof.
  unfold PrivySigning.signAllTransactions. split; [| split].
  - intros out H. apply Promise_all_fulfilled in H.
    apply Forall2_fmap_l in H. eapply Forall2_impl; [exact H |].
    intros tx signed E. simpl in E. unfold PrivySigning.signTransaction in E.
    destruct (service (PrivyWallet.walletId w) tx) as [response | e]; [| discriminate E].
    inversion E; subst. exists response. split; reflexivity.
  - intros e H. apply Promise_all_rejected in H. destruct H as (n & L).
    rewrite list_lookup_fmap in L.
    destruct (txs !! n) as [tx |] eqn:T; [| discriminate L].
    simpl in L. exists tx. split.
    + apply list_elem_of_In. eapply list_elem_of_lookup_2. exact T.
    + unfold PrivySigning.signTransaction in L.
      destruct (service (PrivyWallet.walletId w) tx) as [response | e'];
        [discriminate L |].
      inversion L; subst. reflexivity.
  - intros F. eexists. apply Promise_all_of_fulfilled.
    apply Forall_fmap. eapply Forall_impl; [exact F |].
    intros tx [response E]. simpl. unfold PrivySigning.signTransaction. rewrite E.
    eexists. reflexivity.
Qed.

Section FurtherRuns.
Import Scenario.

(** With the hasher down, a deposit is rejected and nothing is called. *)
Lemma wasm_failure_example :
  fst (EventLoop.method (Imp := imports_without_wasm)
         (EventLoop.Deposit
            {| PrivacyCashV2.lamports := 1000000; PrivacyCashV2.referrer := None |})
         world0)
  = Throw (Error "wasm unavailable")
  /\ calls (snd (EventLoop.method (Imp := imports_without_wasm)
                   (EventLoop.Deposit
                      {| PrivacyCashV2.lamports := 1000000;
                         PrivacyCashV2.referrer := None |})
                   world0))
     = [].
Proof.
  destruct (wasm_failure_makes_no_call (Imp := imports_without_wasm)
              (EventLoop.Deposit
                 {| PrivacyCashV2.lamports := 1000000; PrivacyCashV2.referrer := None |})
              world0 (Error "wasm unavailable") _ eq_refl eq_refl)
    as (A & B & _).
  split; [exact A | exact B].
Defined.

(** A fee recipient that is not base-58. *)
Lemma bad_fee_recipient_example :
  PublicKey_new "0O" = Throw (Error "Non-base58 character")
  /\ fst (PrivacyCashV2.depositV2
            {| PrivacyCashV2.totalLamports := 1000000;
               PrivacyCashV2.feeLamports := 20000;
               PrivacyCashV2.feeRecipient := inl "0O"%string;
               PrivacyCashV2.v2_referrer := None |} world0)
     = Throw (Error "Non-base58 character")
  /\ calls (snd (PrivacyCashV2.depositV2
                   {| PrivacyCashV2.totalLamports := 1000000;
                      PrivacyCashV2.feeLamports := 20000;
                      PrivacyCashV2.feeRecipient := inl "0O"%string;
                      PrivacyCashV2.v2_referrer := None |} world0))
     = [].
Proof.
  split; [reflexivity |].
  destruct (proj1 (bad_fee_recipient_makes_no_deposit (Imp := imports) "0O"
                     (Error "Non-base58 character") eq_refl)
              1000000 20000 None world0 tt
              (outer (snd (PrivacyCashV2.depositV2_enter world0))) eq_refl)
    as (A & B & _).
  split; [exact A | exact B].
Defined.

(** A recipient address that is not base-58. *)
Lemma bad_recipient_example :
  fst (PrivacyCashV2.withdraw
         {| PrivacyCashV2.w_lamports := 500000;
            PrivacyCashV2.recipientAddress := Some "0O"%string |} world0)
  = Throw (Error "Non-base58 character")
  /\ calls (snd (PrivacyCashV2.withdraw
                   {| PrivacyCashV2.w_lamports := 500000;
                      PrivacyCashV2.recipientAddress := Some "0O"%string |} world0))
     = [].
Proof.
  assert (N : "0O"%string <> ""%string) by discriminate.
  destruct (proj1 (bad_recipient_makes_no_withdrawal (Imp := imports) "0O"
                     (Error "Non-base58 character") N eq_refl)
              500000 world0 tt
              (outer (snd (PrivacyCashV2.withdraw_enter world0))) eq_refl)
    as (A & B & _).
  split; [exact A | exact B].
Defined.

(** A deposit and a withdrawal in flight; the deposit settles. *)
Lemma flag_false_while_others_pending_example :
  exists r l',
    EventLoop.settle 0
      (EventLoop.call
         (EventLoop.Withdraw
            {| PrivacyCashV2.w_lamports := 500000;
               PrivacyCashV2.recipientAddress := None |})
         (EventLoop.call
            (EventLoop.Deposit
               {| PrivacyCashV2.lamports := 1000000; PrivacyCashV2.referrer := None |})
            idle))
    = Some (r, l')
    /\ PrivacyCashV2.isOperationRunning (this (EventLoop.world l')) = false
    /\ List.length (EventLoop.pending l') = 1%nat.
Proof.
  set (l := EventLoop.call _ (EventLoop.call _ idle)).
  destruct (EventLoop.settle 0 l) as [[r l'] |] eqn:S;
    [| vm_compute in S; discriminate S].
  exists r, l'. split; [reflexivity |].
  destruct (flag_false_while_others_pending l 0 r l' S (le_n 2)) as (A & B & _).
  split; [exact A | exact B].
Defined.
End FurtherRuns.

Section LastRuns.
Import Scenario.

(** A deposit of the wallet client and one of the keypair client. *)
Lemma deposit_is_one_signed_call_example :
  (exists r w' p,
      PrivacyCashV2.deposit
        {| PrivacyCashV2.lamports := 1000000;
           PrivacyCashV2.referrer := Some fee_address |} world0
      = (Return r, w')
      /\ calls w' = [Sdk.CallDeposit p]
      /\ DepositParams.amount_in_lamports p = 1000000
      /\ DepositParams.referrer p = Some fee_address
      /\ DepositParams.transactionSigner p
         = PrivySigner (PrivacyCashV2.privyWallet client))
  /\ (exists r w' p,
      PrivacyCash.deposit 1000000 world1 = (Return r, w')
      /\ calls w' = [Sdk.CallDeposit p]
      /\ DepositParams.amount_in_lamports p = 1000000
      /\ DepositParams.referrer p = None
      /\ DepositParams.transactionSigner p = KeypairSigner keypair).
Proof.
  split.
  - set (a := {| PrivacyCashV2.lamports := 1000000;
                 PrivacyCashV2.referrer := Some fee_address |}).
    destruct (PrivacyCashV2.deposit a world0) as [[r | e] w'] eqn:E;
      [| vm_compute in E; discriminate E].
    destruct (proj1 (deposit_is_one_signed_call (Imp := imports)) a world0 r w' E)
      as (p & o & o' & _ & C & A & R & _ & S).
    exists r, w', p. repeat split; assumption.
  - destruct (PrivacyCash.deposit 1000000 world1) as [[r | e] w'] eqn:E;
      [| vm_compute in E; discriminate E].
    destruct (proj2 (proj2 (deposit_is_one_signed_call (Imp := imports)))
                1000000 world1 r w' E)
      as (p & o & o' & _ & C & A & R & _ & S).
    exists r, w', p. repeat split; assumption.
Defined.

(** A client created for the wallet of the fee address, with an
    authorization key the package takes; and the same configuration with
    a key it refuses. *)
Lemma create_gives_idle_client_example :
  (exists c o',
      PrivacyCashV2.create privy_package config (outer world0) = (Return c, o')
      /\ PrivacyCashV2.isOperationRunning c = false
      /\ PublicKey_new fee_address = Return (PrivacyCashV2.publicKey c)
      /\ PrivyWallet.walletId (PrivacyCashV2.privyWallet c) = "wallet"%string
      /\ PrivyWallet.walletApi_updateAuthorizationKey privy_package
           (PrivyWallet.authorizationPrivateKey (PrivacyCashV2.privy config))
         = Return tt)
  /\ PrivacyCashV2.create privy_package
       {| PrivacyCashV2.RPC_url := "https://api.mainnet-beta.solana.com";
          PrivacyCashV2.walletId := "wallet";
          PrivacyCashV2.cfg_publicKey := inr FEE_RECIPIENT;
          PrivacyCashV2.privy :=
            {| PrivyWallet.appId := "app";
               PrivyWallet.appSecret := "secret";
               PrivyWallet.authorizationPrivateKey := "key" |};
          PrivacyCashV2.enableDebug := None |} (outer world0)
     = (Throw (Error "invalid authorization key"), outer world0)
  /\ PrivacyCashV2.create privy_package (config_with "key") (outer world0)
     = (Throw (Error "invalid authorization key"), outer world0).
Proof.
  split; [| split].
  - destruct (PrivacyCashV2.create privy_package config (outer world0))
      as [[c | e] o'] eqn:E; [| vm_compute in E; discriminate E].
    exists c, o'. split; [reflexivity |].
    destruct (proj1 (create_gives_idle_client (Imp := imports) privy_package)
                config (outer world0) c o' E)
      as (A & _ & B & C & _ & _ & _ & _ & U).
    split; [exact A |]. split; [exact B |]. split; [exact C | exact U].
  - exact (proj1 (proj2 (proj2 (proj2
             (create_gives_idle_client (Imp := imports) privy_package))))
             "https://api.mainnet-beta.solana.com"%string "wallet"%string
             FEE_RECIPIENT
             {| PrivyWallet.appId := "app";
                PrivyWallet.appSecret := "secret";
                PrivyWallet.authorizationPrivateKey := "key" |}
             None (outer world0) (Error "invalid authorization key")
             eq_refl eq_refl).
  - vm_compute. reflexivity.
Defined.

(** Two zero bytes, as base-58 text, as bytes and as numbers. *)
Lemma owner_encodings_agree_example :
  Bs58.decode "11" = Return [0; 0]
  /\ PrivacyCash.getSolanaKeypair (PrivacyCash.OfString "11")
     = PrivacyCash.getSolanaKeypair (PrivacyCash.OfUint8Array [0; 0])
  /\ PrivacyCash.getSolanaKeypair (PrivacyCash.OfNumbers [256; -256])
     = PrivacyCash.getSolanaKeypair (PrivacyCash.OfNumbers [0; 512]).
Proof.
  split; [reflexivity |]. split.
  - exact (proj1 (proj1 (owner_encodings_agree (Imp := imports)) "11"%string [0; 0]
                    ""%string None eq_refl)).
  - exact (proj1 (proj2 (owner_encodings_agree (Imp := imports)) [256; -256] [0; 512]
                    ""%string None eq_refl)).
Defined.

(** Two transactions signed, the second answered first; and a batch with
    a transaction the service refuses. *)
Lemma signAllTransactions_keeps_order_example :
  (exists out,
      PrivySigning.signAllTransactions sign_service [1; 0]%nat
        (PrivacyCashV2.privyWallet client) [[7]; [8; 9]]
      = Return out
      /\ Forall2 (fun tx signed =>
                    exists response,
                      sign_service "wallet" tx = Return response
                      /\ signed = PrivySigning.signedTransaction response)
           [[7]; [8; 9]] out)
  /\ (exists tx,
      In tx [[7]; []; [8; 9]]
      /\ sign_service "wallet" tx = Throw (Error "empty transaction")).
Proof.
  split.
  - eexists. split; [reflexivity |].
    apply (proj1 (signAllTransactions_keeps_order sign_service [1; 0]%nat
                    (PrivacyCashV2.privyWallet client) [[7]; [8; 9]])).
    reflexivity.
  - apply (proj1 (proj2 (signAllTransactions_keeps_order sign_service [2; 1; 0]%nat
                           (PrivacyCashV2.privyWallet client) [[7]; []; [8; 9]]))).
    reflexivity.
Defined.

(** The two clients of the scenario, on the same key and cache. *)
Lemma keypair_and_wallet_clients_agree_example :
  fst (PrivacyCash.withdraw
         {| PrivacyCash.lamports := 500000;
            PrivacyCash.recipientAddress := Some fee_address |} world2)
  = fst (PrivacyCashV2.withdraw
           {| PrivacyCashV2.w_lamports := 500000;
              PrivacyCashV2.recipientAddress := Some fee_address |} world0)
  /\ fst (PrivacyCash.getPrivateBalance world2)
     = fst (PrivacyCashV2.getPrivateBalance world0).
Proof.
  destruct (keypair_and_wallet_clients_agree (Imp := imports) world2 world0 500000
              (Some fee_address) eq_refl eq_refl eq_refl eq_refl eq_refl)
    as [(A & _) (B & _)].
  split; [exact A | exact B].
Defined.
End LastRuns.
